(** * webpa-common: span errors, WRP-over-HTTP encoders and device HTTP handlers

    A shallow embedding of three source files of the repository:
    - [tracing/spanError.go]        (Module [tracing]),
    - the go-kit encoders of package [wrphttp] (Module [wrphttp]),
    - [device/handlers.go]          (Module [device]).

    Go values are modelled as follows.  A [[]byte] is a [list byte]; a Go
    string is a [string]; a value of interface type [error] is an
    [option error], [None] being the nil interface; an [http.Header] is a
    finite map from canonical header names to their lists of values; an
    [http.ResponseWriter] is its header map together with the chronological
    list of the calls made on it. *)

From Stdlib Require Import ZArith Ascii String List Lia Bool.
From Stdlib.Strings Require Import Byte.
From stdpp Require Import base decidable option list gmap strings fin_maps.

Import ListNotations.
Local Open Scope string_scope.
Local Open Scope list_scope.

(** ** Go vocabulary shared by the three packages *)
Module Go.

Definition bytes : Type := list byte.

(** [[]byte(s)] for a Go string [s]. *)
Definition bytes_of (s : string) : bytes := list_byte_of_string s.

(** The Go interface [error]: a type of non-nil error values with the
    method [Error() string], compared with [==]. *)
Class GoError (error : Type) := {
  Error : error -> string;
  GoError_eq_dec :: EqDecision error
}.

(** A Go call that yields [(value, err)] with exactly one of them meaningful. *)
Inductive result (E A : Type) : Type :=
| Ok (a : A)
| Fail (e : E).
Arguments Ok {E A} a.
Arguments Fail {E A} e.

(** A call that either returns or panics at run time. *)
Inductive call (A : Type) : Type :=
| Returns (a : A)
| Panics.
Arguments Returns {A} a.
Arguments Panics {A}.

(** [fmt]'s rendering of one [%s] operand of interface type [error]: the
    text of [Error()] for a non-nil error, and the bad-verb notation for a
    nil interface value. *)
Definition fmt_s {error : Type} `{!GoError error} (arg : option error) : string :=
  match arg with
  | Some e => Error e
  | None => "%!s(<nil>)"
  end.

(** The one-character string holding a double quote. *)
Definition quote : string := String "034"%char EmptyString.

(** [fmt.Sprintf(prefix + "%s", arg)]. *)
Definition Sprintf_s {error : Type} `{!GoError error} (prefix : string) (arg : option error) : string :=
  prefix ++ fmt_s arg.

(** *** net/http *)

Definition StatusBadRequest : Z := 400.
Definition StatusNotFound : Z := 404.
Definition StatusInternalServerError : Z := 500.

(** [http.Header]: canonical header name to the values stored under it. *)
Abbreviation Header := (gmap string (list string)).

(** [textproto.CanonicalMIMEHeaderKey], which every [Header] method applies
    to the name it is given. *)
Class MIME := { CanonicalMIMEHeaderKey : string -> string }.

Definition Header_Set `{MIME} (key value : string) (h : Header) : Header :=
  <[CanonicalMIMEHeaderKey key := [value]]> h.

Definition Header_Add `{MIME} (key value : string) (h : Header) : Header :=
  <[CanonicalMIMEHeaderKey key :=
      default [] (h !! CanonicalMIMEHeaderKey key) ++ [value]]> h.

Definition Header_Get `{MIME} (key : string) (h : Header) : string :=
  match h !! CanonicalMIMEHeaderKey key with
  | Some (v :: _) => v
  | _ => EmptyString
  end.

(** What is stored under a name after the values [vs] were added to what
    was stored, [o], one [Add] each: nothing changes without an [Add]. *)
Definition extend (o : option (list string)) (vs : list string) : option (list string) :=
  match vs with
  | [] => o
  | _ :: _ => Some (default [] o ++ vs)
  end.

(** [for name, values := range custom { for _, value := range values {
    h.Add(name, value) } }], [custom] listed in the order of the iteration. *)
Definition Header_AddAll `{MIME} (custom : list (string * list string)) (h : Header) : Header :=
  fold_left
    (fun h nv => fold_left (fun h value => Header_Add (fst nv) value h) (snd nv) h)
    custom h.

(** An [io.Reader] as far as [ioutil.ReadAll] observes it: the bytes it
    yields and the error, if any, that ends the reading. *)
Record Reader (error : Type) : Type := mkReader {
  content : bytes;
  failure : option error
}.
Arguments mkReader {error} content failure.
Arguments content {error} r.
Arguments failure {error} r.

(** [ioutil.NopCloser(bytes.NewReader(b))]. *)
Definition NewReader {error : Type} (b : bytes) : Reader error :=
  {| content := b; failure := None |}.

Definition ReadAll {error : Type} (r : Reader error) : bytes * option error :=
  (content r, failure r).

(** [context.Context], built from the request's context by [WithTimeout]. *)
Inductive Context : Type :=
| Background
| WithTimeout (parent : Context) (timeout : Z).

(** The fields of [http.Request] that the code reads or assigns. *)
Record Request (error : Type) : Type := mkRequest {
  ReqHeader : Header;
  Body : Reader error;
  ContentLength : Z;
  ReqContext : Context
}.
Arguments mkRequest {error} ReqHeader Body ContentLength ReqContext.
Arguments ReqHeader {error} r.
Arguments Body {error} r.
Arguments ContentLength {error} r.
Arguments ReqContext {error} r.

(** The calls a handler makes on an [http.ResponseWriter] (which is also an
    [http.Flusher]), in order. *)
Inductive WriterCall : Type :=
| WriteHeader (code : Z)
| Write (data : bytes)
| Flush.

(** An [http.ResponseWriter]: its header map, the calls made on it so far,
    and the sink's behaviour: [WriteErr n] is the error returned by a
    [Write] issued when [n] calls have been made. *)
Record ResponseWriter (error : Type) : Type := mkResponseWriter {
  RespHeader : Header;
  Calls : list WriterCall;
  WriteErr : nat -> option error
}.
Arguments mkResponseWriter {error} RespHeader Calls WriteErr.
Arguments RespHeader {error} r.
Arguments Calls {error} r.
Arguments WriteErr {error} r.

Definition setHeader {error} (f : Header -> Header) (w : ResponseWriter error) : ResponseWriter error :=
  {| RespHeader := f (RespHeader w); Calls := Calls w; WriteErr := WriteErr w |}.

Definition record_call {error} (c : WriterCall) (w : ResponseWriter error) : ResponseWriter error :=
  {| RespHeader := RespHeader w; Calls := Calls w ++ [c]; WriteErr := WriteErr w |}.

Definition record_calls {error} (cs : list WriterCall) (w : ResponseWriter error)
  : ResponseWriter error :=
  {| RespHeader := RespHeader w; Calls := Calls w ++ cs; WriteErr := WriteErr w |}.

(** [w.Write(data)] and [io.WriteString(w, s)]: the call is made, and the
    sink decides whether it reports an error. *)
Definition ResponseWriter_Write {error} (data : bytes) (w : ResponseWriter error)
  : ResponseWriter error * option error :=
  (record_call (Write data) w, WriteErr w (length (Calls w))).

(** [bytes.Buffer.WriteTo(w)] for a buffer holding [output]: one [Write]
    of everything, and no call at all when the buffer is empty. *)
Definition Buffer_WriteTo {error} (output : bytes) (w : ResponseWriter error)
  : ResponseWriter error * option error :=
  match output with
  | [] => (w, None)
  | _ :: _ => ResponseWriter_Write output w
  end.

Definition ResponseWriter_WriteHeader {error} (code : Z) (w : ResponseWriter error) : ResponseWriter error :=
  record_call (WriteHeader code) w.

Definition ResponseWriter_Flush {error} (w : ResponseWriter error) : ResponseWriter error :=
  record_call Flush w.

(** The status line the client receives: the first [WriteHeader] decides,
    and a [Write] made before any [WriteHeader] implies 200.  [None]: the
    handler made neither call. *)
Fixpoint status_of (cs : list WriterCall) : option Z :=
  match cs with
  | [] => None
  | WriteHeader code :: _ => Some code
  | Write _ :: _ => Some 200%Z
  | Flush :: cs => status_of cs
  end.

(** The bytes passed to [Write], concatenated. *)
Fixpoint body_of (cs : list WriterCall) : bytes :=
  match cs with
  | [] => []
  | Write data :: cs => data ++ body_of cs
  | _ :: cs => body_of cs
  end.

Definition is_WriteHeader (c : WriterCall) : bool :=
  match c with WriteHeader _ => true | _ => false end.

End Go.

Import Go.

(** ** package tracing: spanError.go *)
Module tracing.

Section SpanError.
Context {error : Type} `{!GoError error}.
Variable Span : Type.

Record spanError : Type := mkSpanError {
  err : option error;
  spans : list Span
}.

(** [NewSpanError(err, spans...)]: the struct literal, no check on [err]. *)
Definition NewSpanError (e : option error) (ss : list Span) : spanError :=
  {| err := e; spans := ss |}.

(** [se.err.Error()]: a method call on the interface value [se.err],
    which panics when that value is nil. *)
Definition spanError_Error (se : spanError) : call string :=
  match err se with
  | Some e => Returns (Error e)
  | None => Panics
  end.

Definition spanError_Spans (se : spanError) : list Span := spans se.

Definition spanError_Err (se : spanError) : option error := err se.

End SpanError.

Arguments spanError error Span : clear implicits.

End tracing.

(** ** package wrp, as far as the three files use it *)
Module wrp.

(** [wrp.Format]: the wire formats. *)
Inductive Format : Type := JSON | Msgpack.

#[global] Instance Format_eq_dec : EqDecision Format.
Proof. solve_decision. Defined.

(** Modelled from the spec: the declaration of [wrp.Message] is not among
    the sources.  A routable unit with a message-type discriminator, a
    destination identifier, a transaction (correlation) field and an opaque
    payload. *)
Record Message : Type := mkMessage {
  Type_ : Z;
  Destination : string;
  TransactionUUID : string;
  Payload : bytes
}.

(** What the files use of package [wrp] without defining it:
    [format.ContentType()] and the encoder made by
    [wrp.NewEncoderBytes(&output, format)], whose [Encode(message)] either
    fills [output] or returns an error. *)
Class Codec (error : Type) := {
  ContentType : Format -> string;
  Encode : Format -> Message -> result error bytes
}.

End wrp.

(** ** package wrphttp: the go-kit request and response encoders *)
Module wrphttp.

Section Encoders.
Context {error : Type} `{!GoError error, !MIME, !wrp.Codec error}.

(** The name of the reserved destination header, a constant of the package
    declared outside the sources. *)
Variable DestinationHeader : string.

(** The fields of [wrphttp.Entity] that [EncodeRequest] reads. *)
Record Entity : Type := mkEntity {
  Format : wrp.Format;
  Contents : bytes;
  Message : wrp.Message
}.

(** One use of an encoder obtained from [wrp.NewEncoderBytes]. *)
Inductive EncoderCall : Type :=
| EncodeCall (format : wrp.Format) (message : wrp.Message).

(** What one run of an [EncodeRequestFunc] leaves behind: the encoder calls
    it made, the request as it mutated it, and the error it returned. *)
Record Encoded : Type := mkEncoded {
  encoderCalls : list EncoderCall;
  component : Request error;
  returned : option error
}.

Definition setBody (data : bytes) (r : Request error) : Request error :=
  {| ReqHeader := ReqHeader r;
     Body := NewReader data;
     ContentLength := Z.of_nat (length data);
     ReqContext := ReqContext r |}.

Definition setReqHeader (f : Header -> Header) (r : Request error) : Request error :=
  {| ReqHeader := f (ReqHeader r);
     Body := Body r;
     ContentLength := ContentLength r;
     ReqContext := ReqContext r |}.

(** [EncodeRequest(format)] applied to [component] and the entity [v]. *)
Definition EncodeRequest (format : wrp.Format) (component : Request error) (entity : Entity)
  : Encoded :=
  let finish calls component :=
    let component := setReqHeader (Header_Set "Content-Type" (wrp.ContentType format)) component in
    let component :=
      setReqHeader (Header_Set DestinationHeader (wrp.Destination (Message entity))) component in
    mkEncoded calls component None in
  if bool_decide (format = Format entity) && (0 <? length (Contents entity))%nat then
    finish [] (setBody (Contents entity) component)
  else
    let calls := [EncodeCall format (Message entity)] in
    match wrp.Encode format (Message entity) with
    | Fail err => mkEncoded calls component (Some err)
    | Ok transcoded => finish calls (setBody transcoded component)
    end.

(** The values that the loop over [custom] adds under the canonical name
    [key], in the order in which it adds them. *)
Definition added (key : string) (custom : list (string * list string)) : list string :=
  flat_map (fun nv => if decide (CanonicalMIMEHeaderKey (fst nv) = key) then snd nv else [])
           custom.

(** The interface [wrpendpoint.Request], as the methods the encoders call. *)
Record wrpRequest : Type := mkWrpRequest {
  Request_Destination : string;
  Request_Message : wrp.Message;
  Request_Encode : wrp.Format -> result error bytes
}.

(** [ClientEncodeRequestBody(format, custom)] applied to [httpRequest] and
    [value]; [custom] is listed in the order in which [range] yields it. *)
Definition ClientEncodeRequestBody (format : wrp.Format) (custom : list (string * list string))
    (httpRequest : Request error) (wrpRequest : wrpRequest) : Request error * option error :=
  match Request_Encode wrpRequest format with
  | Fail err => (httpRequest, Some err)
  | Ok body =>
      let httpRequest := setReqHeader (Header_AddAll custom) httpRequest in
      let httpRequest :=
        setReqHeader (Header_Set DestinationHeader (Request_Destination wrpRequest)) httpRequest in
      let httpRequest :=
        setReqHeader (Header_Set "Content-Type" (wrp.ContentType format)) httpRequest in
      (setBody body httpRequest, None)
  end.

(** The helpers of the header style, which live in a file of the package
    that is not among the sources. *)

(** [WriteMessagePayload(header, body, message)]: taken as given; it may
    change the header and either yields the bytes it wrote or fails. *)
Variable WriteMessagePayload : Header -> wrp.Message -> Header * result error bytes.

Variable MessageTypeHeader : string.
Variable TransactionUuidHeader : string.
Variable FriendlyName : Z -> string.

(** Modelled from the spec: [AddMessageHeaders] is not among the sources.
    Header style sets one reserved header per scalar message field: the
    destination, the message type and the transaction (correlation) field. *)
Definition AddMessageHeaders (h : Header) (m : wrp.Message) : Header :=
  let h := Header_Set DestinationHeader (wrp.Destination m) h in
  let h := Header_Set MessageTypeHeader (FriendlyName (wrp.Type_ m)) h in
  Header_Set TransactionUuidHeader (wrp.TransactionUUID m) h.

(** [ClientEncodeRequestHeaders(custom)] applied to [httpRequest] and [value]. *)
Definition ClientEncodeRequestHeaders (custom : list (string * list string))
    (httpRequest : Request error) (wrpRequest : wrpRequest) : Request error * option error :=
  match WriteMessagePayload (ReqHeader httpRequest) (Request_Message wrpRequest) with
  | (h, Fail err) => (setReqHeader (fun _ => h) httpRequest, Some err)
  | (h, Ok body) =>
      let httpRequest := setReqHeader (fun _ => h) httpRequest in
      let httpRequest := setReqHeader (Header_AddAll custom) httpRequest in
      let httpRequest :=
        setReqHeader (fun h => AddMessageHeaders h (Request_Message wrpRequest)) httpRequest in
      (setBody body httpRequest, None)
  end.

(** The interface [wrpendpoint.Response], as the methods the encoders call. *)
Variable Span : Type.

Record wrpResponse : Type := mkWrpResponse {
  Response_Spans : list Span;
  Response_Message : wrp.Message;
  Response_Encode : wrp.Format -> result error bytes
}.

(** [tracinghttp.HeadersForSpans(spans, timeLayout, h)], of another package:
    taken as given. *)
Variable HeadersForSpans : list Span -> string -> Header -> Header.

(** [ServerEncodeResponseBody(timeLayout, format)] applied to
    [httpResponse] and [value]. *)
Definition ServerEncodeResponseBody (timeLayout : string) (format : wrp.Format)
    (httpResponse : ResponseWriter error) (wrpResponse : wrpResponse)
  : ResponseWriter error * option error :=
  let httpResponse :=
    setHeader (HeadersForSpans (Response_Spans wrpResponse) timeLayout) httpResponse in
  match Response_Encode wrpResponse format with
  | Fail err => (httpResponse, Some err)
  | Ok output =>
      let httpResponse :=
        setHeader (Header_Set "Content-Type" (wrp.ContentType format)) httpResponse in
      Buffer_WriteTo output httpResponse
  end.

End Encoders.

Arguments Response_Spans {error Span} _.
Arguments Response_Message {error Span} _.
Arguments Response_Encode {error Span} _ _.

End wrphttp.

(** ** package device: handlers.go *)
Module device.

Section Handlers.
Context {error : Type} `{!GoError error, !MIME, !wrp.Codec error}.

(** Declarations of package [device] that live outside [handlers.go]:
    the request type with its constructor, the sentinel error of the
    router, and the device interface with its JSON marshalling. *)
Variable Request : Type.
Variable NewRequest : wrp.Message -> bytes -> Context -> result error Request.
Variable ErrorDeviceNotFound : error.
Variable Span : Type.
Variable Interface : Type.
Variable ID : Interface -> string.
Variable json_Marshal : Interface -> result error bytes.

(** Modelled from the spec: the declaration of [device.Response] is not
    among the sources.  A message-shaped reply with its encoded contents,
    optionally carrying an error (a transaction failure reported by the
    device) and zero or more trace spans. *)
Record Response : Type := mkResponse {
  Message : wrp.Message;
  Contents : bytes;
  Error : option error;
  Spans : list Span
}.

(** [wrp.DecoderPool] and [wrp.EncoderPool], as the methods the handler
    calls.  The encoder methods take an [interface{}]; the handler passes a
    message to [EncodeBytes] and a response to [Encode].

    [Encode] is handed the response writer as the destination of its
    output, and what it does with it is the pool's business: it may write
    any number of times before it returns, with or without an error.  So
    [Encode r sink] is the sequence of the writes the encoder makes for [r]
    and the error it returns, [sink n] being the error that the writer
    returns to its [n]-th write. *)
Record DecoderPool : Type := mkDecoderPool {
  DecoderPool_Format : wrp.Format;
  DecodeBytes : bytes -> result error wrp.Message
}.

Record EncoderPool : Type := mkEncoderPool {
  EncoderPool_Format : wrp.Format;
  EncodeBytes : wrp.Message -> result error bytes;
  Encode : Response -> (nat -> option error) -> list bytes * option error
}.

Record MessageHandler : Type := mkMessageHandler {
  RequestDecoders : DecoderPool;
  ResponseEncoders : option EncoderPool;
  DeviceEncoders : option EncoderPool;
  Router : Request -> option Response * option error;
  Timeout : Z
}.

(** The calls [ServeHTTP] makes on its collaborators, in order. *)
Inductive Call : Type :=
| DecodeBytesCall (body : bytes)
| EncodeBytesCall (message : wrp.Message)
| NewRequestCall (message : wrp.Message) (contents : bytes) (ctx : Context)
| RouteCall (request : Request)
| EncodeResponseCall (deviceResponse : Response).

(** What a handler acts on: the response writer, the logger's output and
    the record of collaborator calls. *)
Record World : Type := mkWorld {
  response : ResponseWriter error;
  logged : list string;
  calls : list Call
}.

(** A handler body: a state transformer that may [exit] (the Go [return])
    before reaching its end. *)
Definition M (A : Type) : Type := World -> option A * World.

Definition ret {A} (a : A) : M A := fun w => (Some a, w).

Definition exit {A} : M A := fun w => (None, w).

Definition bind {A B} (m : M A) (k : A -> M B) : M B :=
  fun w => match m w with
           | (Some a, w') => k a w'
           | (None, w') => (None, w')
           end.

Notation "x <- m ;; k" := (bind m (fun x => k))
  (at level 100, m at next level, right associativity).
Notation "m ;;; k" := (bind m (fun _ => k))
  (at level 100, right associativity).

Definition onResponse (f : ResponseWriter error -> ResponseWriter error) : M unit :=
  fun w => (Some tt, {| response := f (response w); logged := logged w; calls := calls w |}).

Definition write (data : bytes) : M (option error) :=
  fun w => let '(r, e) := ResponseWriter_Write data (response w) in
           (Some e, {| response := r; logged := logged w; calls := calls w |}).

Definition logError (message : string) : M unit :=
  fun w => (Some tt, {| response := response w; logged := logged w ++ [message]; calls := calls w |}).

Definition called {A} (c : Call) (a : A) : M A :=
  fun w => (Some a, {| response := response w; logged := logged w; calls := calls w ++ [c] |}).

(** [pool.Encode(response, deviceResponse)]: the encoder's writes are made
    on the response, and its error is the result. *)
Definition encodeOnto (pool : EncoderPool) (deviceResponse : Response) : M (option error) :=
  fun w =>
    let sink := fun n => WriteErr (response w) (length (Calls (response w)) + n) in
    let '(chunks, failed) := Encode pool deviceResponse sink in
    (Some failed,
     {| response := record_calls (List.map Write chunks) (response w);
        logged := logged w;
        calls := calls w ++ [EncodeResponseCall deviceResponse] |}).

(** Modelled from the spec: [httperror.Formatf] is not among the sources.
    The error-formatting collaborator writes a status code and a message to
    the response sink.  The message is [fmt.Sprintf(format, arg)] for a
    format that ends in its only verb, [%s]; [prefix] is the text before it. *)
Definition Formatf (code : Z) (prefix : string) (arg : option error) : M unit :=
  onResponse (ResponseWriter_WriteHeader code) ;;;
  _ <- write (bytes_of (Sprintf_s prefix arg)) ;;
  ret tt.

(** [createContext]: the request's context, under a deadline when a
    positive timeout is configured; the boolean tells whether [cancel] is
    non-nil. *)
Definition createContext (mh : MessageHandler) (request : Go.Request error) : Context * bool :=
  let ctx := ReqContext request in
  if (0 <? Timeout mh)%Z then (WithTimeout ctx (Timeout mh), true) else (ctx, false).

(** [decodeRequest]: [(message, body, nil)] as [Ok], [(_, _, err)] as [Fail]. *)
Definition decodeRequest (mh : MessageHandler) (request : Go.Request error)
  : M (result error (wrp.Message * bytes)) :=
  match ReadAll (Body request) with
  | (_, Some err) => ret (Fail err)
  | (body, None) =>
      decoded <- called (DecodeBytesCall body) (DecodeBytes (RequestDecoders mh) body) ;;
      match decoded with
      | Fail err => ret (Fail err)
      | Ok message => ret (Ok (message, body))
      end
  end.

Definition ServeHTTP (mh : MessageHandler) (request : Go.Request error) : M unit :=
  let '(ctx, cancel) := createContext mh request in
  decoded <- decodeRequest mh request ;;
  match decoded with
  | Fail err =>
      Formatf StatusBadRequest "Could not decode WRP message: " (Some err) ;;;
      exit
  | Ok (message, contents) =>
      contents <-
        match DeviceEncoders mh with
        | Some pool =>
            encoded <- called (EncodeBytesCall message) (EncodeBytes pool message) ;;
            match encoded with
            | Fail err =>
                Formatf StatusInternalServerError "Could not encode WRP message: " (Some err) ;;;
                exit
            | Ok contents => ret contents
            end
        | None => ret contents
        end ;;
      created <- called (NewRequestCall message contents ctx) (NewRequest message contents ctx) ;;
      match created with
      | Fail err =>
          Formatf StatusBadRequest "Could not create device request: " (Some err) ;;;
          exit
      | Ok deviceRequest =>
          routed <- called (RouteCall deviceRequest) (Router mh deviceRequest) ;;
          let '(deviceResponse, err) := routed in
          match err with
          | Some e =>
              let code :=
                if bool_decide (e = ErrorDeviceNotFound)
                then StatusNotFound
                else StatusInternalServerError in
              Formatf code "Could not process device request: " err
          | None =>
              match deviceResponse with
              | Some deviceResponse =>
                  match Error deviceResponse with
                  | Some _ =>
                      (* the operand is [err], the error of [Route], nil in this branch *)
                      Formatf StatusInternalServerError "Device transaction failed: " err
                  | None =>
                      match ResponseEncoders mh with
                      | Some pool =>
                          onResponse (setHeader (Header_Set "Content-Type"
                                        (wrp.ContentType (EncoderPool_Format pool)))) ;;;
                          failed <- encodeOnto pool deviceResponse ;;
                          match failed with
                          | Some err =>
                              logError (Sprintf_s "Error while encoding WRP response: " (Some err))
                          | None => ret tt
                          end
                      | None =>
                          onResponse (setHeader (Header_Set "Content-Type"
                                        (wrp.ContentType wrp.Msgpack))) ;;;
                          failed <- write (Contents deviceResponse) ;;
                          match failed with
                          | Some err =>
                              logError (Sprintf_s "Error while writing response contents: " (Some err))
                          | None => ret tt
                          end
                      end
                  end
              | None => ret tt
              end
          end
      end
  end.

(** The world in which a handler starts and the one it leaves. *)
Definition fresh (w : ResponseWriter error) : World :=
  {| response := w; logged := []; calls := [] |}.

Definition serve (mh : MessageHandler) (w : ResponseWriter error) (request : Go.Request error) : World :=
  snd (ServeHTTP mh request (fresh w)).

(** What a run of the handler shows from outside: the calls it made on a
    response writer that had [Calls w0] behind it, the contents it passed
    to [NewRequest], the requests it routed and the messages it had the
    device encoders encode. *)
Definition written (w0 : ResponseWriter error) (out : World) : list WriterCall :=
  drop (length (Calls w0)) (Calls (response out)).

Definition forwarded (out : World) : list bytes :=
  omap (fun c => match c with NewRequestCall _ contents _ => Some contents | _ => None end)
       (calls out).

Definition routed (out : World) : list Request :=
  omap (fun c => match c with RouteCall r => Some r | _ => None end) (calls out).

Definition reencoded (out : World) : list wrp.Message :=
  omap (fun c => match c with EncodeBytesCall m => Some m | _ => None end) (calls out).

(** The arguments of the calls of [NewRequest], and the bodies given to
    [DecodeBytes]. *)
Definition constructed (out : World) : list (wrp.Message * bytes * Context) :=
  omap (fun c => match c with
                 | NewRequestCall m contents ctx => Some (m, contents, ctx)
                 | _ => None
                 end) (calls out).

(** The responses the handler handed to the response encoders. *)
Definition answered (out : World) : list Response :=
  omap (fun c => match c with EncodeResponseCall r => Some r | _ => None end) (calls out).

Definition decoded (out : World) : list bytes :=
  omap (fun c => match c with DecodeBytesCall body => Some body | _ => None end) (calls out).

(** The statuses [ServeHTTP] passes to the error formatter. *)
Definition is_error_status (c : WriterCall) : Prop :=
  match c with
  | WriteHeader code =>
      code = StatusBadRequest \/ code = StatusNotFound \/ code = StatusInternalServerError
  | _ => True
  end.

(** *** NewDeviceListHandler *)

(** [manager.VisitAll(visitor)]: the devices the manager passes to the
    visitor, in the order of the visit. *)
Record Manager : Type := mkManager {
  VisitAll : list Interface
}.

(** [make(chan Interface, 100)]. *)
Definition capacity : nat := 100.

Definition openingToken : string := "{" ++ quote ++ "device" ++ quote ++ ": [".
Definition closingToken : string := "]}".

(** [fmt.Sprintf("Unable to marshal device [%s] as JSON: %s", d.ID(), err)]. *)
Definition marshalFailure (d : Interface) (err : error) : string :=
  "Unable to marshal device [" ++ ID d ++ "] as JSON: " ++ Go.Error err.

(** What the goroutine writes for one device after the delimiter: the
    marshalled JSON, or the failure message between two double quotes. *)
Definition entry (d : Interface) : bytes :=
  match json_Marshal d with
  | Fail err => bytes_of (quote ++ marshalFailure d err ++ quote)
  | Ok data => data
  end.

(** Where the handler's own goroutine stands: inside [VisitAll] with the
    devices still to be sent, past [close(devices)] and in [finish.Wait()],
    or returned. *)
Inductive Handler : Type :=
| Visiting (pending : list Interface)
| Waiting
| Returned.

(** Where the spawned goroutine stands: not spawned, at the head of
    [for d := range devices], holding a received device before its writes,
    before [flusher.Flush()], or past the loop with [finish.Done()] run. *)
Inductive Goroutine : Type :=
| Unspawned
| Ranging
| Marshalling (d : Interface)
| Flushing
| Finished.

Record ListState : Type := mkListState {
  handler : Handler;
  goroutine : Goroutine;
  devices : list Interface;
  closed : bool;
  needsDelimiter : bool;
  output : ResponseWriter error;
  messages : list string
}.

(** The handler up to the [go] statement: the content type, the opening
    token, and the early return when that write fails. *)
Definition start (manager : Manager) (response : ResponseWriter error) : ListState :=
  let response := setHeader (Header_Set "Content-Type" "application/json") response in
  match ResponseWriter_Write (bytes_of openingToken) response with
  | (response, Some err) =>
      {| handler := Returned; goroutine := Unspawned; devices := []; closed := false;
         needsDelimiter := false; output := response;
         messages := [Sprintf_s "Unable to write content: " (Some err)] |}
  | (response, None) =>
      {| handler := Visiting (VisitAll manager); goroutine := Ranging; devices := [];
         closed := false; needsDelimiter := false; output := response; messages := [] |}
  end.

Inductive Thread : Type := HandlerThread | GoroutineThread.

(** One step of the handler's goroutine; [None] when it is blocked (on a
    full channel or in [finish.Wait()]) or has returned. *)
Definition handler_step (s : ListState) : option ListState :=
  match handler s with
  | Visiting (d :: pending) =>
      if (length (devices s) <? capacity)%nat then
        Some {| handler := Visiting pending; goroutine := goroutine s;
                devices := devices s ++ [d]; closed := closed s;
                needsDelimiter := needsDelimiter s; output := output s;
                messages := messages s |}
      else None
  | Visiting [] =>
      Some {| handler := Waiting; goroutine := goroutine s; devices := devices s;
              closed := true; needsDelimiter := needsDelimiter s; output := output s;
              messages := messages s |}
  | Waiting =>
      match goroutine s with
      | Finished =>
          let response := fst (ResponseWriter_Write (bytes_of closingToken) (output s)) in
          let response := ResponseWriter_Flush response in
          Some {| handler := Returned; goroutine := goroutine s; devices := devices s;
                  closed := closed s; needsDelimiter := needsDelimiter s;
                  output := response; messages := messages s |}
      | _ => None
      end
  | Returned => None
  end.

(** One step of the spawned goroutine; [None] when it is blocked on the
    empty, open channel, or is not running. *)
Definition goroutine_step (s : ListState) : option ListState :=
  match goroutine s with
  | Ranging =>
      match devices s with
      | d :: buffered =>
          Some {| handler := handler s; goroutine := Marshalling d; devices := buffered;
                  closed := closed s; needsDelimiter := needsDelimiter s;
                  output := output s; messages := messages s |}
      | [] =>
          if closed s then
            Some {| handler := handler s; goroutine := Finished; devices := [];
                    closed := closed s; needsDelimiter := needsDelimiter s;
                    output := output s; messages := messages s |}
          else None
      end
  | Marshalling d =>
      let response :=
        if needsDelimiter s
        then fst (ResponseWriter_Write (bytes_of ",") (output s))
        else output s in
      let logs :=
        match json_Marshal d with
        | Fail err => messages s ++ [marshalFailure d err]
        | Ok _ => messages s
        end in
      let response := fst (ResponseWriter_Write (entry d) response) in
      Some {| handler := handler s; goroutine := Flushing; devices := devices s;
              closed := closed s; needsDelimiter := true; output := response;
              messages := logs |}
  | Flushing =>
      Some {| handler := handler s; goroutine := Ranging; devices := devices s;
              closed := closed s; needsDelimiter := needsDelimiter s;
              output := ResponseWriter_Flush (output s); messages := messages s |}
  | Unspawned | Finished => None
  end.

Definition thread_step (t : Thread) (s : ListState) : option ListState :=
  match t with
  | HandlerThread => handler_step s
  | GoroutineThread => goroutine_step s
  end.

(** The interleaving semantics: any thread that is not blocked may move. *)
Inductive step (s s' : ListState) : Prop :=
| step_thread (t : Thread) (Hmove : thread_step t s = Some s').

Inductive steps : ListState -> ListState -> Prop :=
| steps_refl s : steps s s
| steps_more s1 s2 s3 : steps s1 s2 -> step s2 s3 -> steps s1 s3.

(** A run under a scheduler that prefers thread [t] whenever it can move. *)
Fixpoint run (t : Thread) (fuel : nat) (s : ListState) : ListState :=
  match fuel with
  | O => s
  | S fuel =>
      let other := match t with HandlerThread => GoroutineThread | GoroutineThread => HandlerThread end in
      match thread_step t s with
      | Some s' => run t fuel s'
      | None =>
          match thread_step other s with
          | Some s' => run t fuel s'
          | None => s
          end
      end
  end.

(** The calls a complete listing makes for the devices [ds]: for each one
    a delimiter unless it is the first, its entry and a flush. *)
Fixpoint entries (delimit : bool) (ds : list Interface) : list WriterCall :=
  match ds with
  | [] => []
  | d :: ds =>
      (if delimit then [Write (bytes_of ",")] else [])
        ++ [Write (entry d); Flush] ++ entries true ds
  end.

Definition listing (ds : list Interface) : list WriterCall :=
  [Write (bytes_of openingToken)] ++ entries false ds
    ++ [Write (bytes_of closingToken); Flush].

(** [parts] with [sep] between consecutive ones. *)
Fixpoint join (sep : bytes) (parts : list bytes) : bytes :=
  match parts with
  | [] => []
  | [p] => p
  | p :: ps => p ++ sep ++ join sep ps
  end.

(** The devices not yet received by the goroutine: those buffered in the
    channel, then those the visit has yet to send. *)
Definition queued (s : ListState) : list Interface :=
  devices s ++ match handler s with Visiting pending => pending | _ => [] end.

(** The calls that remain to be made on the response from a state on. *)
Definition ahead (s : ListState) : list WriterCall :=
  (match goroutine s with
   | Marshalling d => entries (needsDelimiter s) (d :: queued s)
   | Flushing => Flush :: entries true (queued s)
   | _ => entries (needsDelimiter s) (queued s)
   end)
  ++ (match handler s with
      | Returned => []
      | _ => [Write (bytes_of closingToken); Flush]
      end).

(** How the channel, the wait group and the two goroutines hang together
    in every state the handler can reach after the [go] statement. *)
Definition coherent (s : ListState) : Prop :=
  match handler s with
  | Visiting _ => closed s = false
  | Waiting => closed s = true
  | Returned => closed s = true /\ goroutine s = Finished
  end
  /\ match goroutine s with
     | Unspawned => False
     | Ranging | Marshalling _ => True
     | Flushing => needsDelimiter s = true
     | Finished => closed s = true /\ devices s = []
     end.

(** The invariant of the listing: the state is coherent, and the calls
    made so far followed by the calls still ahead are the complete listing
    of [all], after the calls [base] that preceded the handler. *)
Definition on_course (base : list WriterCall) (all : list Interface) (s : ListState) : Prop :=
  coherent s /\ Calls (output s) ++ ahead s = base ++ listing all.

(** The messages the goroutine logs for the devices [ds]: one for each
    device whose marshalling fails. *)
Definition failures (ds : list Interface) : list string :=
  omap (fun d => match json_Marshal d with
                 | Fail err => Some (marshalFailure d err)
                 | Ok _ => None
                 end) ds.

(** The devices whose entry is not written yet: the one the goroutine
    holds, if any, and those queued behind it. *)
Definition unwritten (s : ListState) : list Interface :=
  match goroutine s with
  | Marshalling d => d :: queued s
  | _ => queued s
  end.

Definition is_Flush (c : WriterCall) : bool :=
  match c with Flush => true | _ => false end.

Definition is_Write (c : WriterCall) : bool :=
  match c with Write _ => true | _ => false end.

(** The steps still ahead of a state: four per device yet to be sent, three
    per buffered device, and what each thread has left of its own. *)
Definition measure (s : ListState) : nat :=
  (match handler s with
   | Visiting pending => 4 * length pending + 2
   | Waiting => 1
   | Returned => 0
   end)
  + 3 * length (devices s)
  + (match goroutine s with
     | Ranging => 1
     | Marshalling _ => 3
     | Flushing => 2
     | Unspawned | Finished => 0
     end).

End Handlers.

Arguments mkResponse {error Span} _ _ _ _.
Arguments Message {error Span} _.
Arguments Contents {error Span} _.
Arguments Error {error Span} _.
Arguments Spans {error Span} _.
Arguments mkEncoderPool {error Span} _ _ _.
Arguments EncoderPool_Format {error Span} _.
Arguments EncodeBytes {error Span} _ _.
Arguments Encode {error Span} _ _ _.
Arguments mkMessageHandler {error Request Span} _ _ _ _ _.
Arguments RequestDecoders {error Request Span} _.
Arguments ResponseEncoders {error Request Span} _.
Arguments DeviceEncoders {error Request Span} _.
Arguments Router {error Request Span} _ _.
Arguments Timeout {error Request Span} _.
Arguments DecodeBytesCall {error Request Span} _.
Arguments EncodeBytesCall {error Request Span} _.
Arguments NewRequestCall {error Request Span} _ _ _.
Arguments RouteCall {error Request Span} _.
Arguments EncodeResponseCall {error Request Span} _.
Arguments mkWorld {error Request Span} _ _ _.
Arguments response {error Request Span} _.
Arguments logged {error Request Span} _.
Arguments calls {error Request Span} _.
Arguments fresh {error Request Span} _.
Arguments written {error Request Span} _ _.
Arguments forwarded {error Request Span} _.
Arguments routed {error Request Span} _.
Arguments reencoded {error Request Span} _.
Arguments constructed {error Request Span} _.
Arguments decoded {error Request Span} _.
Arguments answered {error Request Span} _.
Arguments mkManager {Interface} _.
Arguments VisitAll {Interface} _.
Arguments Visiting {Interface} _.
Arguments Waiting {Interface}.
Arguments Returned {Interface}.
Arguments Unspawned {Interface}.
Arguments Ranging {Interface}.
Arguments Marshalling {Interface} _.
Arguments Flushing {Interface}.
Arguments Finished {Interface}.
Arguments mkListState {error Interface} _ _ _ _ _ _ _.
Arguments handler {error Interface} _.
Arguments goroutine {error Interface} _.
Arguments devices {error Interface} _.
Arguments closed {error Interface} _.
Arguments needsDelimiter {error Interface} _.
Arguments output {error Interface} _.
Arguments messages {error Interface} _.
Arguments measure {error Interface} _.
Arguments queued {error Interface} _.
Arguments coherent {error Interface} _.
Arguments unwritten {error Interface} _.

End device.

(** ** Well-formed JSON texts (RFC 8259), to judge what the listing writes *)
Module json.

Definition code (b : byte) : N := Byte.to_N b.

Definition is_ws (b : byte) : bool :=
  let c := code b in
  ((c =? 32) || (c =? 9) || (c =? 10) || (c =? 13))%N.

Definition is_digit (b : byte) : bool :=
  let c := code b in ((48 <=? c) && (c <=? 57))%N.

Definition is_hex (b : byte) : bool :=
  let c := code b in
  (((48 <=? c) && (c <=? 57)) || ((65 <=? c) && (c <=? 70)) || ((97 <=? c) && (c <=? 102)))%N.

(** The characters that may follow a backslash, [u] apart. *)
Definition is_escape (b : byte) : bool :=
  let c := code b in
  ((c =? 34) || (c =? 92) || (c =? 47) || (c =? 98) || (c =? 102)
   || (c =? 110) || (c =? 114) || (c =? 116))%N.

Fixpoint skip_ws (s : bytes) : bytes :=
  match s with
  | b :: r => if is_ws b then skip_ws r else s
  | [] => []
  end.

Fixpoint skip_digits (s : bytes) : bytes :=
  match s with
  | b :: r => if is_digit b then skip_digits r else s
  | [] => []
  end.

(** The rest of a string literal after its opening quotation mark; the
    result is what follows the closing one. *)
Fixpoint string_rest (s : bytes) : option bytes :=
  match s with
  | [] => None
  | b :: r =>
      if (code b =? 34)%N then Some r
      else if (code b =? 92)%N then
        match r with
        | e :: r1 =>
            if is_escape e then string_rest r1
            else if (code e =? 117)%N then
              match r1 with
              | h1 :: h2 :: h3 :: h4 :: r2 =>
                  if is_hex h1 && is_hex h2 && is_hex h3 && is_hex h4
                  then string_rest r2 else None
              | _ => None
              end
            else None
        | [] => None
        end
      else if (code b <? 32)%N then None
      else string_rest r
  end.

(** One or more digits. *)
Definition digits1 (s : bytes) : option bytes :=
  match s with
  | b :: r => if is_digit b then Some (skip_digits r) else None
  | [] => None
  end.

Definition number (s : bytes) : option bytes :=
  let s := match s with
           | b :: r => if (code b =? 45)%N then r else s
           | [] => s
           end in
  let int := match s with
             | b :: r => if (code b =? 48)%N then Some r else digits1 s
             | [] => None
             end in
  match int with
  | None => None
  | Some s =>
      let frac := match s with
                  | b :: r => if (code b =? 46)%N then digits1 r else Some s
                  | [] => Some s
                  end in
      match frac with
      | None => None
      | Some s =>
          match s with
          | b :: r =>
              if ((code b =? 101) || (code b =? 69))%N then
                match r with
                | sg :: r1 =>
                    if ((code sg =? 43) || (code sg =? 45))%N then digits1 r1 else digits1 r
                | [] => None
                end
              else Some s
          | [] => Some s
          end
      end
  end.

(** [literal w s]: [s] without its prefix [w], the codes of a literal name. *)
Fixpoint literal (w : list N) (s : bytes) : option bytes :=
  match w, s with
  | [], _ => Some s
  | c :: w, b :: r => if (code b =? c)%N then literal w r else None
  | _ :: _, [] => None
  end.

Inductive Production : Type := Value | Elements | Members.

(** A recursive-descent recogniser; the result is what follows the parsed
    production.  [Elements] and [Members] start after the opening bracket
    or a separator and run up to the closing bracket. *)
Fixpoint parse (fuel : nat) (p : Production) (s : bytes) : option bytes :=
  match fuel with
  | O => None
  | S fuel =>
      match p with
      | Value =>
          match skip_ws s with
          | [] => None
          | b :: r =>
              let c := code b in
              if (c =? 34)%N then string_rest r
              else if (c =? 91)%N then
                match skip_ws r with
                | b' :: r' => if (code b' =? 93)%N then Some r' else parse fuel Elements r
                | [] => None
                end
              else if (c =? 123)%N then
                match skip_ws r with
                | b' :: r' => if (code b' =? 125)%N then Some r' else parse fuel Members r
                | [] => None
                end
              else if (c =? 116)%N then literal [114; 117; 101]%N r
              else if (c =? 102)%N then literal [97; 108; 115; 101]%N r
              else if (c =? 110)%N then literal [117; 108; 108]%N r
              else number (b :: r)
          end
      | Elements =>
          match parse fuel Value s with
          | None => None
          | Some r =>
              match skip_ws r with
              | b :: r' =>
                  if (code b =? 44)%N then parse fuel Elements r'
                  else if (code b =? 93)%N then Some r'
                  else None
              | [] => None
              end
          end
      | Members =>
          match skip_ws s with
          | b :: r =>
              if (code b =? 34)%N then
                match string_rest r with
                | None => None
                | Some r1 =>
                    match skip_ws r1 with
                    | b1 :: r2 =>
                        if (code b1 =? 58)%N then
                          match parse fuel Value r2 with
                          | None => None
                          | Some r3 =>
                              match skip_ws r3 with
                              | b3 :: r4 =>
                                  if (code b3 =? 44)%N then parse fuel Members r4
                                  else if (code b3 =? 125)%N then Some r4
                                  else None
                              | [] => None
                              end
                          end
                        else None
                    | [] => None
                    end
                end
              else None
          | [] => None
          end
      end
  end.

(** A JSON text is one value between optional white space.  Every call of
    [parse] is at most one call away from consuming a byte, so twice the
    length is fuel enough. *)
Definition Valid (s : bytes) : bool :=
  match parse (2 * length s + 2) Value s with
  | Some r => match skip_ws r with [] => true | _ :: _ => false end
  | None => false
  end.

End json.

(** ** Concrete collaborators, for the examples *)
Module fixtures.

(** An error in the manner of [errors.New]: its identity and its text. *)
Record errorString : Type := mkErrorString {
  ident : nat;
  text : string
}.

#[global] Instance errorString_eq_dec : EqDecision errorString.
Proof. solve_decision. Defined.

#[global] Instance errorString_GoError : GoError errorString :=
  {| Go.Error := text |}.

(** Header names are written in canonical form throughout the examples. *)
#[global] Instance canonical : MIME :=
  {| CanonicalMIMEHeaderKey := fun name => name |}.

Definition unsupported : errorString :=
  {| ident := 1; text := "unsupported message type" |}.

(** A codec that prefixes the payload with a format tag and rejects
    negative message types. *)
#[global] Instance codec : wrp.Codec errorString :=
  {| wrp.ContentType := fun f => match f with
                                 | wrp.JSON => "application/json"
                                 | wrp.Msgpack => "application/msgpack"
                                 end;
     wrp.Encode := fun f m =>
       if (wrp.Type_ m <? 0)%Z then Fail unsupported
       else Ok ((match f with wrp.JSON => "{"%byte | wrp.Msgpack => x85 end) :: wrp.Payload m) |}.

Definition DestinationHeader : string := "X-Webpa-Device-Name".
Definition MessageTypeHeader : string := "X-Xmidt-Message-Type".
Definition TransactionUuidHeader : string := "X-Xmidt-Transaction-Uuid".

Definition ping : wrp.Message :=
  {| wrp.Type_ := 3; wrp.Destination := "mac:112233445566";
     wrp.TransactionUUID := "t-1"; wrp.Payload := bytes_of "ping" |}.

Definition broken : wrp.Message :=
  {| wrp.Type_ := -1; wrp.Destination := "mac:112233445566";
     wrp.TransactionUUID := "t-2"; wrp.Payload := [] |}.

Definition blank : Request errorString :=
  {| ReqHeader := ∅; Body := NewReader []; ContentLength := 0; ReqContext := Background |}.

(** An entity already in Msgpack, and one whose cached bytes are absent. *)
Definition cached : wrphttp.Entity :=
  {| wrphttp.Format := wrp.Msgpack; wrphttp.Contents := bytes_of "raw"; wrphttp.Message := ping |}.

Definition uncached : wrphttp.Entity :=
  {| wrphttp.Format := wrp.Msgpack; wrphttp.Contents := []; wrphttp.Message := ping |}.

Definition pingRequest : wrphttp.wrpRequest (error := errorString) :=
  {| wrphttp.Request_Destination := wrp.Destination ping;
     wrphttp.Request_Message := ping;
     wrphttp.Request_Encode := fun f => wrp.Encode f ping |}.

Definition payloadOnly (h : Header) (m : wrp.Message) : Header * result errorString bytes :=
  (Header_Set "Content-Type" "application/octet-stream" h, Ok (wrp.Payload m)).

Definition friendly (t : Z) : string := if (t =? 3)%Z then "SimpleRequestResponse" else "Unknown".

(** *** A message handler *)

Record deviceRequest : Type := mkDeviceRequest {
  forMessage : wrp.Message;
  forContents : bytes;
  forContext : Context
}.

Definition NewRequest (m : wrp.Message) (contents : bytes) (ctx : Context)
  : result errorString deviceRequest :=
  match wrp.Destination m with
  | EmptyString => Fail {| ident := 3; text := "no destination" |}
  | _ => Ok {| forMessage := m; forContents := contents; forContext := ctx |}
  end.

Definition ErrorDeviceNotFound : errorString :=
  {| ident := 2; text := "The device does not exist" |}.

Definition transport : errorString := {| ident := 4; text := "connection closed" |}.
Definition deviceFailure : errorString := {| ident := 5; text := "device busy" |}.
Definition malformed : errorString := {| ident := 6; text := "malformed message" |}.

(** A lenient decoder: it skips leading white space and reads the rest as
    the destination; an empty body is malformed. *)
Definition decode (body : bytes) : result errorString wrp.Message :=
  match json.skip_ws body with
  | [] => Fail malformed
  | rest => Ok {| wrp.Type_ := 3; wrp.Destination := string_of_list_byte rest;
                  wrp.TransactionUUID := EmptyString; wrp.Payload := [] |}
  end.

(** The matching encoder writes the destination, without any padding. *)
Definition encode (m : wrp.Message) : result errorString bytes :=
  Ok (bytes_of (wrp.Destination m)).

Definition reply (m : wrp.Message) (e : option errorString) : device.Response (error := errorString) nat :=
  {| device.Message := m; device.Contents := bytes_of "pong"; device.Error := e;
     device.Spans := [7] |}.

(** A router that knows one healthy device, one that reports a failure and
    one whose connection is broken; [mac:000000000000] is answered with
    neither a response nor an error. *)
Definition route (r : deviceRequest)
  : option (device.Response (error := errorString) nat) * option errorString :=
  let m := forMessage r in
  if String.eqb (wrp.Destination m) "mac:112233445566" then (Some (reply m None), None)
  else if String.eqb (wrp.Destination m) "mac:665544332211"
       then (Some (reply m (Some deviceFailure)), None)
  else if String.eqb (wrp.Destination m) "mac:aabbccddeeff" then (None, Some transport)
  else if String.eqb (wrp.Destination m) "mac:000000000000" then (None, None)
  else (None, Some ErrorDeviceNotFound).

Definition msgpackDecoders : device.DecoderPool (error := errorString) :=
  {| device.DecoderPool_Format := wrp.Msgpack; device.DecodeBytes := decode |}.

Definition msgpackEncoders : device.EncoderPool (error := errorString) nat :=
  {| device.EncoderPool_Format := wrp.Msgpack;
     device.EncodeBytes := encode;
     device.Encode := fun r _ => ([device.Contents r], None) |}.

(** A handler that transcodes for the devices, and one that does not. *)
Definition transcoding : device.MessageHandler deviceRequest nat :=
  {| device.RequestDecoders := msgpackDecoders;
     device.ResponseEncoders := Some msgpackEncoders;
     device.DeviceEncoders := Some msgpackEncoders;
     device.Router := route;
     device.Timeout := 0 |}.

Definition passthrough : device.MessageHandler deviceRequest nat :=
  {| device.RequestDecoders := msgpackDecoders;
     device.ResponseEncoders := None;
     device.DeviceEncoders := None;
     device.Router := route;
     device.Timeout := 0 |}.

(** A response writer on which nothing was called and every write succeeds. *)
Definition recorder : ResponseWriter errorString :=
  {| RespHeader := ∅; Calls := []; WriteErr := fun _ => None |}.

Definition inbound (body : string) : Request errorString :=
  {| ReqHeader := ∅; Body := NewReader (bytes_of body); ContentLength := Z.of_nat (String.length body);
     ReqContext := Background |}.

Definition served (mh : device.MessageHandler deviceRequest nat) (body : string)
  : device.World deviceRequest nat :=
  device.serve deviceRequest NewRequest ErrorDeviceNotFound nat mh recorder (inbound body).

(** A pool whose encoder rejects every message, and a handler that
    transcodes with it. *)
Definition rejectingEncoders : device.EncoderPool (error := errorString) nat :=
  {| device.EncoderPool_Format := wrp.Msgpack;
     device.EncodeBytes := fun _ => Fail unsupported;
     device.Encode := fun _ _ => ([], Some unsupported) |}.

Definition untranscodable : device.MessageHandler deviceRequest nat :=
  {| device.RequestDecoders := msgpackDecoders;
     device.ResponseEncoders := Some rejectingEncoders;
     device.DeviceEncoders := Some rejectingEncoders;
     device.Router := route;
     device.Timeout := 0 |}.

(** A handler whose response encoders fail. *)
Definition unanswerable : device.MessageHandler deviceRequest nat :=
  {| device.RequestDecoders := msgpackDecoders;
     device.ResponseEncoders := Some rejectingEncoders;
     device.DeviceEncoders := None;
     device.Router := route;
     device.Timeout := 0 |}.

(** A handler with a timeout of thirty seconds, in nanoseconds. *)
Definition deadlined : device.MessageHandler deviceRequest nat :=
  {| device.RequestDecoders := msgpackDecoders;
     device.ResponseEncoders := None;
     device.DeviceEncoders := None;
     device.Router := route;
     device.Timeout := 30000000000 |}.

Definition invalidID : errorString := {| ident := 9; text := "invalid device id" |}.

(** A [NewRequest] that accepts no message. *)
Definition refuse (m : wrp.Message) (contents : bytes) (ctx : Context)
  : result errorString deviceRequest :=
  Fail invalidID.

Definition reset : errorString := {| ident := 10; text := "connection reset by peer" |}.

(** A request whose body cannot be read, and a response writer whose
    every write fails. *)
Definition unreadable : Request errorString :=
  {| ReqHeader := ∅; Body := {| content := []; failure := Some reset |};
     ContentLength := 0; ReqContext := Background |}.

Definition brokenPipe : ResponseWriter errorString :=
  {| RespHeader := ∅; Calls := []; WriteErr := fun _ => Some reset |}.

(** *** Trace spans and a go-kit response *)

Definition spanHeaders (spans : list nat) (timeLayout : string) (h : Header) : Header :=
  fold_left (fun h _ => Header_Add "X-Xmidt-Span" timeLayout h) spans h.

Definition pong : wrphttp.wrpResponse (error := errorString) nat :=
  {| wrphttp.Response_Spans := [7];
     wrphttp.Response_Message := ping;
     wrphttp.Response_Encode := fun f => wrp.Encode f ping |}.

(** *** Devices to list *)

Record gadget : Type := mkGadget {
  name : string;
  fault : option errorString
}.

Definition marshal (g : gadget) : result errorString bytes :=
  match fault g with
  | Some e => Fail e
  | None => Ok (bytes_of ("{" ++ quote ++ "id" ++ quote ++ ": " ++ quote ++ name g ++ quote ++ "}"))
  end.

Definition healthy (n : string) : gadget := {| name := n; fault := None |}.

(** The error [json.Marshal] reports when a [MarshalJSON] method returns
    an object whose key is followed by a string instead of a colon; its
    text quotes the offending character, a double quote. *)
Definition syntaxError : errorString :=
  {| ident := 7;
     text := "json: error calling MarshalJSON for type *device.device: invalid character '"
             ++ quote ++ "' after object key" |}.

Definition valueError : errorString :=
  {| ident := 8; text := "json: unsupported value: NaN" |}.

Definition faulty (n : string) (e : errorString) : gadget := {| name := n; fault := Some e |}.

Definition three (e : errorString) : device.Manager gadget :=
  {| device.VisitAll := [healthy "mac:112233445566"; faulty "mac:665544332211" e;
                         healthy "mac:aabbccddeeff"] |}.

(** What the listing of [three valueError] sends, byte for byte. *)
Definition threeListed : string :=
  "{" ++ quote ++ "device" ++ quote ++ ": ["
  ++ "{" ++ quote ++ "id" ++ quote ++ ": " ++ quote ++ "mac:112233445566" ++ quote ++ "}"
  ++ ","
  ++ quote
  ++ "Unable to marshal device [mac:665544332211] as JSON: json: unsupported value: NaN"
  ++ quote
  ++ ","
  ++ "{" ++ quote ++ "id" ++ quote ++ ": " ++ quote ++ "mac:aabbccddeeff" ++ quote ++ "}"
  ++ "]}".

Definition crowd : device.Manager gadget :=
  {| device.VisitAll := repeat (healthy "mac:112233445566") 250 |}.

(** The state in which the listing of [manager] ends when thread [t] is
    preferred. *)
Definition listed (t : device.Thread) (manager : device.Manager gadget)
  : device.ListState (error := errorString) gadget :=
  let s0 := device.start gadget manager recorder in
  device.run gadget name marshal t (device.measure s0) s0.

End fixtures.

(** * Properties *)

(** ** tracing *)
Section SpanError_facts.
Context {error : Type} `{!GoError error}.
Variable Span : Type.

(** C7: for every error [e] and every span sequence [ss], the value
    returned by [NewSpanError(e, ss...)] answers [Error()] with exactly
    [e.Error()], [Spans()] with exactly [ss] and [Err()] with exactly [e];
    the spans and the wrapped error are returned as given for a nil error
    too. *)
Theorem NewSpanError_is_a_carrier :
  (forall (e : error) (ss : list Span),
      tracing.spanError_Error Span (tracing.NewSpanError Span (Some e) ss) = Returns (Go.Error e))
  /\ (forall (err : option error) (ss : list Span),
         tracing.spanError_Spans Span (tracing.NewSpanError Span err ss) = ss
         /\ tracing.spanError_Err Span (tracing.NewSpanError Span err ss) = err).
Proof.
  split.
  - intros e ss. unfold tracing.spanError_Error, tracing.NewSpanError. simpl. reflexivity.
  - intros err ss. split; reflexivity.
Qed.

(** C9: [NewSpanError] stores its error argument unchecked.  On a non-nil
    error [Error()] returns a string; on a nil error the constructor still
    returns a value, and [Error()] on that value panics. *)
Theorem NewSpanError_nil_error_panics :
  (forall (e : error) (ss : list Span),
      exists text, tracing.spanError_Error Span (tracing.NewSpanError Span (Some e) ss) = Returns text)
  /\ (forall ss : list Span,
         tracing.spanError_Err Span (tracing.NewSpanError (error := error) Span None ss) = None
         /\ tracing.spanError_Error Span (tracing.NewSpanError (error := error) Span None ss) = Panics).
Proof.
  split.
  - intros e ss. exists (Go.Error e). reflexivity.
  - intros ss. split; reflexivity.
Qed.

End SpanError_facts.

(** ** net/http headers *)
Section Header_facts.
Context `{!MIME}.

Lemma Header_Get_Set (key value : string) (h : Header) :
  Header_Get key (Header_Set key value h) = value.
Proof.
  unfold Header_Get, Header_Set. rewrite lookup_insert_eq. reflexivity.
Qed.

Lemma Header_Get_Set_other (key key' value : string) (h : Header) :
  CanonicalMIMEHeaderKey key' <> CanonicalMIMEHeaderKey key ->
  Header_Get key (Header_Set key' value h) = Header_Get key h.
Proof.
  intros Hne. unfold Header_Get, Header_Set.
  rewrite lookup_insert_ne by exact Hne. reflexivity.
Qed.

Lemma extend_extend (o : option (list string)) (xs ys : list string) :
  extend (extend o xs) ys = extend o (xs ++ ys).
Proof.
  destruct xs as [|x xs]; [reflexivity|].
  destruct ys as [|y ys]; cbn.
  - rewrite app_nil_r. reflexivity.
  - rewrite <- app_assoc. reflexivity.
Qed.

(** Adding values under one name, as the inner loop over [values] does. *)
Lemma Header_Add_values_lookup (name : string) (values : list string) (h : Header)
    (key : string) :
  fold_left (fun h value => Header_Add name value h) values h !! key
  = extend (h !! key) (if decide (CanonicalMIMEHeaderKey name = key) then values else []).
Proof.
  revert h. induction values as [|v values IH]; intros h.
  - cbn. destruct (decide _); reflexivity.
  - cbn [fold_left]. rewrite IH. unfold Header_Add.
    destruct (decide (CanonicalMIMEHeaderKey name = key)) as [->|Hne].
    + rewrite lookup_insert_eq.
      destruct values as [|y ys]; cbn; rewrite <- ?app_assoc; reflexivity.
    + rewrite lookup_insert_ne by exact Hne. reflexivity.
Qed.

End Header_facts.

(** ** wrphttp *)
Section Encoder_facts.
Context {error : Type} `{!GoError error, !MIME, !wrp.Codec error}.
Variable DestinationHeader : string.

#[local] Abbreviation EncodeRequest := (wrphttp.EncodeRequest DestinationHeader).
#[local] Abbreviation ClientEncodeRequestBody :=
  (wrphttp.ClientEncodeRequestBody DestinationHeader).

(** The branch of [EncodeRequest] that reuses the entity's bytes. *)
Lemma EncodeRequest_reuse (format : wrp.Format) (component : Request error)
    (entity : wrphttp.Entity) :
  wrphttp.Contents entity <> [] ->
  wrphttp.Format entity = format ->
  let r := EncodeRequest format component entity in
  wrphttp.encoderCalls r = []
  /\ wrphttp.returned r = None
  /\ Body (wrphttp.component r) = NewReader (wrphttp.Contents entity)
  /\ ContentLength (wrphttp.component r) = Z.of_nat (length (wrphttp.Contents entity)).
Proof.
  intros Hne Hfmt. unfold wrphttp.EncodeRequest.
  rewrite bool_decide_eq_true_2 by (symmetry; exact Hfmt).
  destruct (wrphttp.Contents entity) as [|b bs] eqn:Hc; [congruence|].
  simpl. repeat split.
Qed.

(** The branch of [EncodeRequest] that encodes the message afresh. *)
Lemma EncodeRequest_transcode (format : wrp.Format) (component : Request error)
    (entity : wrphttp.Entity) :
  ~ (wrphttp.Contents entity <> [] /\ wrphttp.Format entity = format) ->
  let r := EncodeRequest format component entity in
  wrphttp.encoderCalls r = [wrphttp.EncodeCall format (wrphttp.Message entity)]
  /\ match wrp.Encode format (wrphttp.Message entity) with
     | Ok transcoded =>
         wrphttp.returned r = None
         /\ Body (wrphttp.component r) = NewReader transcoded
         /\ ContentLength (wrphttp.component r) = Z.of_nat (length transcoded)
     | Fail err =>
         wrphttp.returned r = Some err /\ wrphttp.component r = component
     end.
Proof.
  intros Hnot. unfold wrphttp.EncodeRequest.
  assert (Hcond : bool_decide (format = wrphttp.Format entity)
                  && (0 <? length (wrphttp.Contents entity))%nat = false).
  { apply andb_false_iff.
    destruct (decide (format = wrphttp.Format entity)) as [Heq|Hneq].
    - right. apply Nat.ltb_ge.
      destruct (wrphttp.Contents entity) as [|b bs] eqn:Hc; [simpl; lia|].
      exfalso. apply Hnot. split; [discriminate | congruence].
    - left. apply bool_decide_eq_false_2. exact Hneq. }
  rewrite Hcond.
  destruct (wrp.Encode format (wrphttp.Message entity)) as [transcoded|err]; simpl;
    repeat split.
Qed.

(** C1: when the entity's contents are non-empty and its format is the
    target format, the request body is exactly those contents, the content
    length is their length and no encoder is called; otherwise the encoder
    is called once on the entity's message for the target format, and the
    bytes it produces become the body (if it fails, its error is returned
    and the request is left as it was). *)
Theorem EncodeRequest_reuses_or_transcodes (format : wrp.Format)
    (component : Request error) (entity : wrphttp.Entity) :
  let r := EncodeRequest format component entity in
  (wrphttp.Contents entity <> [] /\ wrphttp.Format entity = format ->
   wrphttp.encoderCalls r = []
   /\ wrphttp.returned r = None
   /\ Body (wrphttp.component r) = NewReader (wrphttp.Contents entity)
   /\ ContentLength (wrphttp.component r) = Z.of_nat (length (wrphttp.Contents entity)))
  /\ (~ (wrphttp.Contents entity <> [] /\ wrphttp.Format entity = format) ->
      wrphttp.encoderCalls r = [wrphttp.EncodeCall format (wrphttp.Message entity)]
      /\ match wrp.Encode format (wrphttp.Message entity) with
         | Ok transcoded =>
             wrphttp.returned r = None
             /\ Body (wrphttp.component r) = NewReader transcoded
             /\ ContentLength (wrphttp.component r) = Z.of_nat (length transcoded)
         | Fail err =>
             wrphttp.returned r = Some err /\ wrphttp.component r = component
         end).
Proof.
  split.
  - intros [Hne Hfmt]. apply EncodeRequest_reuse; assumption.
  - apply EncodeRequest_transcode.
Qed.

Lemma EncodeRequest_destination (format : wrp.Format) (component : Request error)
    (entity : wrphttp.Entity) :
  wrphttp.returned (EncodeRequest format component entity) = None ->
  Header_Get DestinationHeader
    (ReqHeader (wrphttp.component (EncodeRequest format component entity)))
  = wrp.Destination (wrphttp.Message entity).
Proof.
  unfold wrphttp.EncodeRequest.
  destruct (bool_decide (format = wrphttp.Format entity)
            && (0 <? length (wrphttp.Contents entity))%nat).
  - intros _. simpl. apply Header_Get_Set.
  - destruct (wrp.Encode format (wrphttp.Message entity)); simpl.
    + intros _. apply Header_Get_Set.
    + discriminate.
Qed.

Lemma ClientEncodeRequestBody_destination (format : wrp.Format)
    (custom : list (string * list string)) (httpRequest : Request error)
    (wrpRequest : wrphttp.wrpRequest) :
  CanonicalMIMEHeaderKey "Content-Type" <> CanonicalMIMEHeaderKey DestinationHeader ->
  snd (ClientEncodeRequestBody format custom httpRequest wrpRequest) = None ->
  Header_Get DestinationHeader
    (ReqHeader (fst (ClientEncodeRequestBody format custom httpRequest wrpRequest)))
  = wrphttp.Request_Destination wrpRequest.
Proof.
  intros Hne. unfold wrphttp.ClientEncodeRequestBody.
  destruct (wrphttp.Request_Encode wrpRequest format); simpl.
  - intros _. rewrite Header_Get_Set_other by exact Hne. apply Header_Get_Set.
  - discriminate.
Qed.

(** What the loop over the custom headers leaves under a canonical name:
    the values that were there, followed by the custom values of that
    name in the order of the loop. *)
Lemma Header_AddAll_lookup (custom : list (string * list string)) (h : Header) (key : string) :
  Header_AddAll custom h !! key = extend (h !! key) (wrphttp.added key custom).
Proof.
  unfold Header_AddAll. revert h.
  induction custom as [|[name values] custom IH]; intros h.
  - reflexivity.
  - cbn [fold_left fst snd]. rewrite IH, Header_Add_values_lookup.
    rewrite extend_extend. reflexivity.
Qed.

(** X16: [EncodeRequest] touches two headers and nothing else of the request's
    metadata: on success the destination header holds the destination
    alone, the content type holds the format's content type alone, every
    other header is as it was, and so is the request's context. *)
Lemma EncodeRequest_headers (format : wrp.Format) (component : Request error)
    (entity : wrphttp.Entity) :
  CanonicalMIMEHeaderKey "Content-Type" <> CanonicalMIMEHeaderKey DestinationHeader ->
  wrphttp.returned (EncodeRequest format component entity) = None ->
  let r := wrphttp.component (EncodeRequest format component entity) in
  ReqHeader r !! CanonicalMIMEHeaderKey DestinationHeader
  = Some [wrp.Destination (wrphttp.Message entity)]
  /\ ReqHeader r !! CanonicalMIMEHeaderKey "Content-Type" = Some [wrp.ContentType format]
  /\ (forall key,
         key <> CanonicalMIMEHeaderKey DestinationHeader ->
         key <> CanonicalMIMEHeaderKey "Content-Type" ->
         ReqHeader r !! key = ReqHeader component !! key)
  /\ ReqContext r = ReqContext component.
Proof.
  intros Hne. unfold wrphttp.EncodeRequest.
  destruct (bool_decide (format = wrphttp.Format entity)
            && (0 <? length (wrphttp.Contents entity))%nat);
    [|destruct (wrp.Encode format (wrphttp.Message entity)); [|discriminate]].
  all: intros _; cbn; unfold Header_Set; repeat split.
  all: try (rewrite lookup_insert_eq; reflexivity).
  all: try (rewrite lookup_insert_ne by congruence; rewrite lookup_insert_eq; reflexivity).
  all: intros key Hd Hc; rewrite !lookup_insert_ne by congruence; reflexivity.
Qed.

(** X17: Custom headers cannot displace the two headers of the body style, and
    are added, not set: after [ClientEncodeRequestBody] succeeds, the
    destination header holds the request's destination alone and the
    content type holds the format's alone, whatever [custom] holds under
    those names; under every other name the values that were there are
    followed by the custom values of that name. *)
Lemma ClientEncodeRequestBody_headers (format : wrp.Format)
    (custom : list (string * list string)) (httpRequest : Request error)
    (wrpRequest : wrphttp.wrpRequest) :
  CanonicalMIMEHeaderKey "Content-Type" <> CanonicalMIMEHeaderKey DestinationHeader ->
  snd (ClientEncodeRequestBody format custom httpRequest wrpRequest) = None ->
  let h := ReqHeader (fst (ClientEncodeRequestBody format custom httpRequest wrpRequest)) in
  h !! CanonicalMIMEHeaderKey DestinationHeader
  = Some [wrphttp.Request_Destination wrpRequest]
  /\ h !! CanonicalMIMEHeaderKey "Content-Type" = Some [wrp.ContentType format]
  /\ (forall key,
         key <> CanonicalMIMEHeaderKey DestinationHeader ->
         key <> CanonicalMIMEHeaderKey "Content-Type" ->
         h !! key = extend (ReqHeader httpRequest !! key) (wrphttp.added key custom)).
Proof.
  intros Hne. unfold wrphttp.ClientEncodeRequestBody.
  destruct (wrphttp.Request_Encode wrpRequest format); [|discriminate].
  intros _. cbn. unfold Header_Set. repeat split.
  - rewrite lookup_insert_ne by congruence. rewrite lookup_insert_eq. reflexivity.
  - rewrite lookup_insert_eq. reflexivity.
  - intros key Hd Hc. rewrite !lookup_insert_ne by congruence.
    apply Header_AddAll_lookup.
Qed.

(** X18: [ClientEncodeRequestBody] encodes before it touches the request: when
    the request's [Encode] fails, its error is returned and the HTTP
    request is exactly as it was, with no custom header added; when it
    succeeds, the body yields exactly the encoded bytes. *)
Lemma ClientEncodeRequestBody_outcome (format : wrp.Format)
    (custom : list (string * list string)) (httpRequest : Request error)
    (wrpRequest : wrphttp.wrpRequest) :
  match wrphttp.Request_Encode wrpRequest format with
  | Fail err =>
      ClientEncodeRequestBody format custom httpRequest wrpRequest = (httpRequest, Some err)
  | Ok body =>
      snd (ClientEncodeRequestBody format custom httpRequest wrpRequest) = None
      /\ ReadAll (Body (fst (ClientEncodeRequestBody format custom httpRequest wrpRequest)))
         = (body, None)
  end.
Proof.
  unfold wrphttp.ClientEncodeRequestBody.
  destruct (wrphttp.Request_Encode wrpRequest format); [split|]; reflexivity.
Qed.

Section HeaderStyle.
Variable WriteMessagePayload : Header -> wrp.Message -> Header * result error bytes.
Variables MessageTypeHeader TransactionUuidHeader : string.
Variable FriendlyName : Z -> string.

#[local] Abbreviation ClientEncodeRequestHeaders :=
  (wrphttp.ClientEncodeRequestHeaders DestinationHeader WriteMessagePayload
     MessageTypeHeader TransactionUuidHeader FriendlyName).

Lemma AddMessageHeaders_destination (h : Header) (m : wrp.Message) :
  CanonicalMIMEHeaderKey MessageTypeHeader <> CanonicalMIMEHeaderKey DestinationHeader ->
  CanonicalMIMEHeaderKey TransactionUuidHeader <> CanonicalMIMEHeaderKey DestinationHeader ->
  Header_Get DestinationHeader
    (wrphttp.AddMessageHeaders DestinationHeader MessageTypeHeader TransactionUuidHeader
       FriendlyName h m)
  = wrp.Destination m.
Proof.
  intros Hty Htx. unfold wrphttp.AddMessageHeaders.
  rewrite Header_Get_Set_other by exact Htx.
  rewrite Header_Get_Set_other by exact Hty.
  apply Header_Get_Set.
Qed.

Lemma ClientEncodeRequestHeaders_destination (custom : list (string * list string))
    (httpRequest : Request error) (wrpRequest : wrphttp.wrpRequest) :
  CanonicalMIMEHeaderKey MessageTypeHeader <> CanonicalMIMEHeaderKey DestinationHeader ->
  CanonicalMIMEHeaderKey TransactionUuidHeader <> CanonicalMIMEHeaderKey DestinationHeader ->
  snd (ClientEncodeRequestHeaders custom httpRequest wrpRequest) = None ->
  Header_Get DestinationHeader
    (ReqHeader (fst (ClientEncodeRequestHeaders custom httpRequest wrpRequest)))
  = wrp.Destination (wrphttp.Request_Message wrpRequest).
Proof.
  intros Hty Htx. unfold wrphttp.ClientEncodeRequestHeaders.
  destruct (WriteMessagePayload (ReqHeader httpRequest) (wrphttp.Request_Message wrpRequest))
    as [h [body|err]]; simpl.
  - intros _. apply AddMessageHeaders_destination; assumption.
  - discriminate.
Qed.

(** C6: provided the reserved header names are pairwise distinct from the
    destination header's (and the latter is not [Content-Type]), every
    request on which a request encoder returns without error carries the
    destination header set to the message's destination: after
    [EncodeRequest] and [ClientEncodeRequestBody], whose body already holds
    the whole message, and after [ClientEncodeRequestHeaders]. *)
Theorem request_encoders_set_destination (format : wrp.Format)
    (custom : list (string * list string)) (httpRequest : Request error)
    (entity : wrphttp.Entity) (wrpRequest : wrphttp.wrpRequest) :
  CanonicalMIMEHeaderKey "Content-Type" <> CanonicalMIMEHeaderKey DestinationHeader ->
  CanonicalMIMEHeaderKey MessageTypeHeader <> CanonicalMIMEHeaderKey DestinationHeader ->
  CanonicalMIMEHeaderKey TransactionUuidHeader <> CanonicalMIMEHeaderKey DestinationHeader ->
  (wrphttp.returned (EncodeRequest format httpRequest entity) = None ->
   Header_Get DestinationHeader
     (ReqHeader (wrphttp.component (EncodeRequest format httpRequest entity)))
   = wrp.Destination (wrphttp.Message entity))
  /\ (snd (ClientEncodeRequestBody format custom httpRequest wrpRequest) = None ->
      Header_Get DestinationHeader
        (ReqHeader (fst (ClientEncodeRequestBody format custom httpRequest wrpRequest)))
      = wrphttp.Request_Destination wrpRequest)
  /\ (snd (ClientEncodeRequestHeaders custom httpRequest wrpRequest) = None ->
      Header_Get DestinationHeader
        (ReqHeader (fst (ClientEncodeRequestHeaders custom httpRequest wrpRequest)))
      = wrp.Destination (wrphttp.Request_Message wrpRequest)).
Proof.
  intros Hct Hty Htx. repeat split.
  - apply EncodeRequest_destination.
  - apply ClientEncodeRequestBody_destination. exact Hct.
  - apply ClientEncodeRequestHeaders_destination; assumption.
Qed.

(** X19: The content length never disagrees with the body: after any of the
    three request encoders succeeds, the request's [ContentLength] is the
    number of bytes its body yields, and reading the body does not fail. *)
Lemma request_encoders_content_length (format : wrp.Format)
    (custom : list (string * list string)) (httpRequest : Request error)
    (entity : wrphttp.Entity) (wrpRequest : wrphttp.wrpRequest) :
  let consistent (r : Request error) :=
    ContentLength r = Z.of_nat (length (fst (ReadAll (Body r))))
    /\ snd (ReadAll (Body r)) = None in
  (wrphttp.returned (EncodeRequest format httpRequest entity) = None ->
   consistent (wrphttp.component (EncodeRequest format httpRequest entity)))
  /\ (snd (ClientEncodeRequestBody format custom httpRequest wrpRequest) = None ->
      consistent (fst (ClientEncodeRequestBody format custom httpRequest wrpRequest)))
  /\ (snd (ClientEncodeRequestHeaders custom httpRequest wrpRequest) = None ->
      consistent (fst (ClientEncodeRequestHeaders custom httpRequest wrpRequest))).
Proof.
  cbv zeta. split; [|split].
  all: unfold wrphttp.EncodeRequest, wrphttp.ClientEncodeRequestBody,
         wrphttp.ClientEncodeRequestHeaders.
  all: repeat match goal with
         | |- context [match ?x with _ => _ end] =>
             lazymatch x with
             | context [match _ with _ => _ end] => fail
             | _ => destruct x
             end
         end; cbn; intros Hret; try discriminate Hret; split; reflexivity.
Qed.

End HeaderStyle.

Section ResponseBody.
Variable Span : Type.
Variable HeadersForSpans : list Span -> string -> Header -> Header.

(** [ServerEncodeResponseBody] adds the headers for the response's spans
    before it encodes, so they are on the response whether the encoding
    succeeds or not. *)
Lemma ServerEncodeResponseBody_span_headers (timeLayout : string) (format : wrp.Format)
    (httpResponse : ResponseWriter error) (wrpResponse : wrphttp.wrpResponse Span) :
  RespHeader (fst (wrphttp.ServerEncodeResponseBody Span HeadersForSpans timeLayout format
                     httpResponse wrpResponse))
  = match wrphttp.Response_Encode wrpResponse format with
    | Ok _ =>
        Header_Set "Content-Type" (wrp.ContentType format)
          (HeadersForSpans (wrphttp.Response_Spans wrpResponse) timeLayout
             (RespHeader httpResponse))
    | Fail _ =>
        HeadersForSpans (wrphttp.Response_Spans wrpResponse) timeLayout
          (RespHeader httpResponse)
    end.
Proof.
  unfold wrphttp.ServerEncodeResponseBody.
  destruct (wrphttp.Response_Encode wrpResponse format) as [output|err]; simpl.
  - destruct output; reflexivity.
  - reflexivity.
Qed.

(** X20: What [ServerEncodeResponseBody] writes: when the response's [Encode]
    fails, nothing, and its error is returned; when it yields no bytes,
    nothing either; otherwise the encoded bytes in one [Write], whose error,
    if any, is the one returned. *)
Lemma ServerEncodeResponseBody_writes (timeLayout : string) (format : wrp.Format)
    (httpResponse : ResponseWriter error) (wrpResponse : wrphttp.wrpResponse Span) :
  let r := wrphttp.ServerEncodeResponseBody Span HeadersForSpans timeLayout format
             httpResponse wrpResponse in
  match wrphttp.Response_Encode wrpResponse format with
  | Fail err => Calls (fst r) = Calls httpResponse /\ snd r = Some err
  | Ok [] => Calls (fst r) = Calls httpResponse /\ snd r = None
  | Ok output =>
      Calls (fst r) = Calls httpResponse ++ [Write output]
      /\ snd r = WriteErr httpResponse (length (Calls httpResponse))
  end.
Proof.
  unfold wrphttp.ServerEncodeResponseBody.
  destruct (wrphttp.Response_Encode wrpResponse format) as [[|b output]|err];
    cbn; split; reflexivity.
Qed.

End ResponseBody.

End Encoder_facts.


Example served_samples :
  status_of (Calls (device.response (fixtures.served fixtures.transcoding "mac:112233445566"))) = Some 200%Z
  /\ Calls (device.response (fixtures.served fixtures.transcoding "mac:665544332211"))
     = [WriteHeader 500; Write (bytes_of "Device transaction failed: %!s(<nil>)")]
  /\ status_of (Calls (device.response (fixtures.served fixtures.transcoding "mac:aabbccddeeff"))) = Some 500%Z
  /\ status_of (Calls (device.response (fixtures.served fixtures.transcoding "mac:ffffffffffff"))) = Some 404%Z
  /\ status_of (Calls (device.response (fixtures.served fixtures.transcoding EmptyString))) = Some 400%Z
  /\ Calls (device.response (fixtures.served fixtures.transcoding "mac:000000000000")) = []
  /\ device.forwarded (fixtures.served fixtures.transcoding " mac:112233445566")
     = [bytes_of "mac:112233445566"]
  /\ device.forwarded (fixtures.served fixtures.passthrough " mac:112233445566")
     = [bytes_of " mac:112233445566"].
Proof. vm_compute. repeat split. Qed.

(** ** device: MessageHandler.ServeHTTP *)
Section ServeHTTP_facts.
Context {error : Type} `{!GoError error, !MIME, !wrp.Codec error}.
Variable Request : Type.
Variable NewRequest : wrp.Message -> bytes -> Context -> result error Request.
Variable ErrorDeviceNotFound : error.
Variable Span : Type.

#[local] Abbreviation serve := (device.serve Request NewRequest ErrorDeviceNotFound Span).

Lemma written_app (w0 : ResponseWriter error) (out : device.World Request Span) (cs : list WriterCall) :
  Calls (device.response out) = Calls w0 ++ cs -> device.written w0 out = cs.
Proof.
  intros Heq. unfold device.written. rewrite Heq. apply drop_app_length.
Qed.

Lemma writes_hold_no_status (chunks : list bytes) :
  List.filter is_WriteHeader (List.map Write chunks) = [].
Proof.
  induction chunks as [|c chunks IH]; [reflexivity | exact IH].
Qed.

Lemma writes_are_no_error_status (chunks : list bytes) :
  List.Forall device.is_error_status (List.map Write chunks).
Proof.
  induction chunks as [|c chunks IH]; constructor; [exact I | exact IH].
Qed.

(** Run the handler symbolically: unfold its body and split on every
    collaborator result that decides a branch, innermost first. *)
Ltac serve_step :=
  cbn beta iota zeta delta
    [fst snd device.response device.calls device.logged Calls RespHeader WriteErr];
  match goal with
  | Hknown : ?x = _ |- context [match ?x with _ => _ end] => rewrite Hknown
  | |- context [match ?x with _ => _ end] =>
      lazymatch x with
      | context [match _ with _ => _ end] => fail
      | _ => destruct x eqn:?
      end
  end.

Ltac serve_cases :=
  unfold device.serve, device.ServeHTTP, device.decodeRequest, device.createContext,
    device.Formatf, device.encodeOnto, device.bind, device.ret, device.exit, device.called,
    device.write, device.onResponse, device.logError, device.fresh, ReadAll,
    ResponseWriter_Write, ResponseWriter_WriteHeader, record_call, record_calls, setHeader;
  repeat serve_step;
  cbn beta iota zeta delta
    [fst snd device.response device.calls device.logged Calls RespHeader WriteErr].

(** Bring what the run wrote, forwarded, routed and re-encoded to lists. *)
Ltac observe :=
  unfold device.written, device.forwarded, device.routed, device.reencoded;
  cbn [device.response device.calls Calls RespHeader app omap mbind option_bind];
  rewrite <- ?app_assoc, ?drop_app_length, ?drop_all;
  cbn [app status_of List.filter length is_WriteHeader].

Lemma ServeHTTP_decode_failure (mh : device.MessageHandler Request Span)
    (w0 : ResponseWriter error) (request : Go.Request error) :
  failure (Body request) <> None
  \/ (exists err, device.DecodeBytes (device.RequestDecoders mh) (content (Body request)) = Fail err) ->
  status_of (device.written w0 (serve mh w0 request)) = Some StatusBadRequest.
Proof.
  intros Hfail. serve_cases; observe; try reflexivity.
  all: destruct Hfail as [Hfail | [err Hfail]]; congruence.
Qed.

Lemma ServeHTTP_route_error (mh : device.MessageHandler Request Span)
    (w0 : ResponseWriter error) (request : Go.Request error)
    (dr : Request) (resp : option (device.Response Span)) (e : error) :
  device.routed (serve mh w0 request) = [dr] ->
  device.Router mh dr = (resp, Some e) ->
  status_of (device.written w0 (serve mh w0 request))
  = Some (if bool_decide (e = ErrorDeviceNotFound)
          then StatusNotFound else StatusInternalServerError).
Proof.
  serve_cases; observe; intros Hdr Hroute;
    try discriminate Hdr; injection Hdr as ->; try congruence.
  all: match goal with
       | Hr : device.Router _ _ = (_, Some _) |- _ =>
           rewrite Hr in Hroute; injection Hroute as Hresp He; subst; congruence
       end.
Qed.

Lemma ServeHTTP_device_failure (mh : device.MessageHandler Request Span)
    (w0 : ResponseWriter error) (request : Go.Request error)
    (dr : Request) (resp : device.Response Span) :
  device.routed (serve mh w0 request) = [dr] ->
  device.Router mh dr = (Some resp, None) ->
  device.Error resp <> None ->
  device.written w0 (serve mh w0 request)
  = [WriteHeader StatusInternalServerError;
     Write (bytes_of (Sprintf_s "Device transaction failed: " (None : option error)))]
  /\ RespHeader (device.response (serve mh w0 request)) = RespHeader w0.
Proof.
  serve_cases; observe; intros Hdr Hroute Herr;
    try discriminate Hdr; injection Hdr as ->; try congruence.
  all: try (split; reflexivity).
  all: match goal with
       | Hr : device.Router _ _ = (Some _, None) |- _ =>
           rewrite Hr in Hroute; injection Hroute as Hresp; subst; congruence
       end.
Qed.

Lemma ServeHTTP_one_error_write (mh : device.MessageHandler Request Span)
    (w0 : ResponseWriter error) (request : Go.Request error) :
  length (List.filter is_WriteHeader (device.written w0 (serve mh w0 request))) <= 1.
Proof.
  serve_cases; observe; rewrite ?writes_hold_no_status; cbn; lia.
Qed.

Lemma ServeHTTP_transcodes (mh : device.MessageHandler Request Span)
    (w0 : ResponseWriter error) (request : Go.Request error)
    (message : wrp.Message) (pool : device.EncoderPool Span) :
  failure (Body request) = None ->
  device.DecodeBytes (device.RequestDecoders mh) (content (Body request)) = Ok message ->
  device.DeviceEncoders mh = Some pool ->
  device.reencoded (serve mh w0 request) = [message]
  /\ match device.EncodeBytes pool message with
     | Ok encoded => device.forwarded (serve mh w0 request) = [encoded]
     | Fail _ =>
         device.forwarded (serve mh w0 request) = []
         /\ status_of (device.written w0 (serve mh w0 request))
            = Some StatusInternalServerError
     end.
Proof.
  intros Hread Hdecode Hpool.
  serve_cases; observe; repeat split; reflexivity.
Qed.

Lemma ServeHTTP_forwards_body (mh : device.MessageHandler Request Span)
    (w0 : ResponseWriter error) (request : Go.Request error) (message : wrp.Message) :
  failure (Body request) = None ->
  device.DecodeBytes (device.RequestDecoders mh) (content (Body request)) = Ok message ->
  device.DeviceEncoders mh = None ->
  device.reencoded (serve mh w0 request) = []
  /\ device.forwarded (serve mh w0 request) = [content (Body request)].
Proof.
  intros Hread Hdecode Hpool.
  serve_cases; observe; try congruence.
  all: split; reflexivity.
Qed.

Lemma ServeHTTP_silent_route (mh : device.MessageHandler Request Span)
    (w0 : ResponseWriter error) (request : Go.Request error) (dr : Request) :
  device.routed (serve mh w0 request) = [dr] ->
  device.Router mh dr = (None, None) ->
  device.written w0 (serve mh w0 request) = []
  /\ RespHeader (device.response (serve mh w0 request)) = RespHeader w0.
Proof.
  serve_cases; observe; intros Hdr Hroute;
    try discriminate Hdr; injection Hdr as ->; try congruence.
  all: split; reflexivity.
Qed.

(** The failure branch does one thing to the response, the call of the
    error formatter, and hands nothing to the response encoders. *)
Lemma ServeHTTP_device_failure_formatter (mh : device.MessageHandler Request Span)
    (w0 : ResponseWriter error) (request : Go.Request error)
    (dr : Request) (resp : device.Response Span) :
  device.routed (serve mh w0 request) = [dr] ->
  device.Router mh dr = (Some resp, None) ->
  device.Error resp <> None ->
  device.response (serve mh w0 request)
  = device.response
      (snd (device.Formatf Request Span StatusInternalServerError
              "Device transaction failed: " None (device.fresh w0)))
  /\ device.answered (serve mh w0 request) = [].
Proof.
  serve_cases; observe; unfold device.answered; cbn [device.calls omap];
    intros Hdr Hroute Herr;
    try discriminate Hdr; injection Hdr as ->; try congruence.
  all: try (split; reflexivity).
  all: match goal with
       | Hr : device.Router _ _ = (Some _, None) |- _ =>
           rewrite Hr in Hroute; injection Hroute as Hresp; subst; congruence
       end.
Qed.

(** C2: the status written by [ServeHTTP] follows the outcome.  A failure
    to read or decode the request body yields 400; an error from
    [Router.Route] yields 404 when it is [ErrorDeviceNotFound] and 500
    otherwise; a routed response whose [Error] is set yields 500; and in
    every run the handler writes at most one status. *)
Theorem ServeHTTP_status_follows_outcome (mh : device.MessageHandler Request Span)
    (w0 : ResponseWriter error) (request : Go.Request error) :
  let out := serve mh w0 request in
  (failure (Body request) <> None
   \/ (exists err,
          device.DecodeBytes (device.RequestDecoders mh) (content (Body request)) = Fail err) ->
   status_of (device.written w0 out) = Some 400%Z)
  /\ (forall dr resp,
         device.routed out = [dr] ->
         device.Router mh dr = (resp, Some ErrorDeviceNotFound) ->
         status_of (device.written w0 out) = Some 404%Z)
  /\ (forall dr resp e,
         device.routed out = [dr] ->
         device.Router mh dr = (resp, Some e) ->
         e <> ErrorDeviceNotFound ->
         status_of (device.written w0 out) = Some 500%Z)
  /\ (forall dr resp,
         device.routed out = [dr] ->
         device.Router mh dr = (Some resp, None) ->
         device.Error resp <> None ->
         status_of (device.written w0 out) = Some 500%Z)
  /\ length (List.filter is_WriteHeader (device.written w0 out)) <= 1.
Proof.
  cbv zeta. repeat split.
  - apply ServeHTTP_decode_failure.
  - intros dr resp Hdr Hroute.
    rewrite (ServeHTTP_route_error mh w0 request dr resp _ Hdr Hroute).
    rewrite bool_decide_eq_true_2 by reflexivity. reflexivity.
  - intros dr resp e Hdr Hroute Hne.
    rewrite (ServeHTTP_route_error mh w0 request dr resp e Hdr Hroute).
    rewrite bool_decide_eq_false_2 by exact Hne. reflexivity.
  - intros dr resp Hdr Hroute Herr.
    destruct (ServeHTTP_device_failure mh w0 request dr resp Hdr Hroute Herr) as [-> _].
    reflexivity.
  - apply ServeHTTP_one_error_write.
Qed.

(** C4 (amended): after a successful decode, a handler with device
    encoders has them encode the decoded message whatever the formats of
    the two pools, and forwards the encoder's output to the device request
    (an encoding failure forwards nothing and yields 500); a handler without
    device encoders encodes nothing and forwards the request body as it
    was read. *)
Theorem ServeHTTP_forwarded_contents (mh : device.MessageHandler Request Span)
    (w0 : ResponseWriter error) (request : Go.Request error) (message : wrp.Message) :
  failure (Body request) = None ->
  device.DecodeBytes (device.RequestDecoders mh) (content (Body request)) = Ok message ->
  let out := serve mh w0 request in
  (forall pool,
      device.DeviceEncoders mh = Some pool ->
      device.reencoded out = [message]
      /\ match device.EncodeBytes pool message with
         | Ok encoded => device.forwarded out = [encoded]
         | Fail _ =>
             device.forwarded out = []
             /\ status_of (device.written w0 out) = Some 500%Z
         end)
  /\ (device.DeviceEncoders mh = None ->
      device.reencoded out = []
      /\ device.forwarded out = [content (Body request)]).
Proof.
  intros Hread Hdecode. cbv zeta. split.
  - intros pool Hpool. apply ServeHTTP_transcodes; assumption.
  - intros Hpool. apply (ServeHTTP_forwards_body mh w0 request message); assumption.
Qed.

(** C8: when [Router.Route] returns neither a response nor an error,
    [ServeHTTP] makes no call on the response writer, so no status and no
    body, and leaves its headers as they were. *)
Theorem ServeHTTP_nil_response_writes_nothing (mh : device.MessageHandler Request Span)
    (w0 : ResponseWriter error) (request : Go.Request error) (dr : Request) :
  device.routed (serve mh w0 request) = [dr] ->
  device.Router mh dr = (None, None) ->
  device.written w0 (serve mh w0 request) = []
  /\ status_of (device.written w0 (serve mh w0 request)) = None
  /\ body_of (device.written w0 (serve mh w0 request)) = []
  /\ RespHeader (device.response (serve mh w0 request)) = RespHeader w0.
Proof.
  intros Hdr Hroute.
  destruct (ServeHTTP_silent_route mh w0 request dr Hdr Hroute) as [Hw Hh].
  rewrite Hw. repeat split. exact Hh.
Qed.

Section SpanHeaders.
Variable HeadersForSpans : list Span -> string -> Header -> Header.

(** C3 (amended): when the routed response carries an error, all that
    [ServeHTTP] does to the response is one call of the error formatter,
    with status 500 and a text that begins [Device transaction failed: ]:
    the response is as that call leaves the response the handler was given.
    The handler sets no header of its own before it, so no trace-span
    header, and it hands nothing to the response encoders.  Trace-span
    headers are the work of the go-kit response encoder:
    [ServerEncodeResponseBody] adds the headers for the response's spans
    before it encodes, whether the encoding succeeds or fails. *)
Theorem device_failure_is_a_plain_500 (mh : device.MessageHandler Request Span)
    (w0 : ResponseWriter error) (request : Go.Request error)
    (dr : Request) (resp : device.Response Span)
    (timeLayout : string) (format : wrp.Format)
    (httpResponse : ResponseWriter error) (wrpResponse : wrphttp.wrpResponse Span) :
  device.routed (serve mh w0 request) = [dr] ->
  device.Router mh dr = (Some resp, None) ->
  device.Error resp <> None ->
  (exists arg,
      device.response (serve mh w0 request)
      = device.response
          (snd (device.Formatf Request Span 500 "Device transaction failed: " arg
                  (device.fresh w0))))
  /\ (exists text,
         device.written w0 (serve mh w0 request)
         = [WriteHeader 500; Write (bytes_of ("Device transaction failed: " ++ text))])
  /\ device.answered (serve mh w0 request) = []
  /\ RespHeader (fst (wrphttp.ServerEncodeResponseBody Span HeadersForSpans timeLayout format
                        httpResponse wrpResponse))
     = match wrphttp.Response_Encode wrpResponse format with
       | Ok _ =>
           Header_Set "Content-Type" (wrp.ContentType format)
             (HeadersForSpans (wrphttp.Response_Spans wrpResponse) timeLayout
                (RespHeader httpResponse))
       | Fail _ =>
           HeadersForSpans (wrphttp.Response_Spans wrpResponse) timeLayout
             (RespHeader httpResponse)
       end.
Proof.
  intros Hdr Hroute Herr.
  destruct (ServeHTTP_device_failure mh w0 request dr resp Hdr Hroute Herr) as [Hw _].
  destruct (ServeHTTP_device_failure_formatter mh w0 request dr resp Hdr Hroute Herr)
    as [Hformat Hnone].
  split; [exists None; exact Hformat|].
  split; [eexists; rewrite Hw; reflexivity|].
  split; [exact Hnone|].
  apply ServerEncodeResponseBody_span_headers.
Qed.

End SpanHeaders.

(** *** Further properties of [ServeHTTP] *)

Ltac observe_all :=
  unfold device.written, device.forwarded, device.routed, device.reencoded,
    device.constructed, device.decoded;
  cbn [device.response device.calls device.logged Calls RespHeader app omap mbind option_bind];
  rewrite <- ?app_assoc, ?drop_app_length, ?drop_all;
  cbn [app status_of List.filter length is_WriteHeader].

(** X1: The handler starts a response body only for a device response
    without error: when the first call it makes on the response is a
    [Write], the router was called once and returned a response whose
    [Error] is nil, together with a nil error.  (Runs in which the handler
    makes no call at all on the response are not runs of this kind.) *)
Lemma ServeHTTP_ok_only_for_clean_response (mh : device.MessageHandler Request Span)
    (w0 : ResponseWriter error) (request : Go.Request error) :
  status_of (device.written w0 (serve mh w0 request)) = Some 200%Z ->
  exists dr resp,
    device.routed (serve mh w0 request) = [dr]
    /\ device.Router mh dr = (Some resp, None)
    /\ device.Error resp = None.
Proof.
  serve_cases; observe_all; intros Hstatus; try discriminate Hstatus.
  all: eexists; eexists; repeat split; eauto.
Qed.

(** X2: The only statuses the handler ever writes are 400, 404 and 500. *)
Lemma ServeHTTP_explicit_statuses (mh : device.MessageHandler Request Span)
    (w0 : ResponseWriter error) (request : Go.Request error) :
  List.Forall device.is_error_status (device.written w0 (serve mh w0 request)).
Proof.
  serve_cases; observe_all;
    repeat (apply List.Forall_cons; [cbn; tauto|]);
    first [apply List.Forall_nil | apply writes_are_no_error_status].
Qed.

(** X3: What reaches the router: the router is called at most once, and when
    it is, the body was read and decoded, the contents are the device
    encoders' output (or the body itself without device encoders), and the
    request is the one [NewRequest] made of them under the context of
    [createContext]. *)
Lemma ServeHTTP_routes_what_it_built (mh : device.MessageHandler Request Span)
    (w0 : ResponseWriter error) (request : Go.Request error) :
  length (device.routed (serve mh w0 request)) <= 1
  /\ forall dr,
       device.routed (serve mh w0 request) = [dr] ->
       failure (Body request) = None
       /\ exists message contents,
            device.DecodeBytes (device.RequestDecoders mh) (content (Body request)) = Ok message
            /\ match device.DeviceEncoders mh with
               | Some pool => device.EncodeBytes pool message = Ok contents
               | None => contents = content (Body request)
               end
            /\ NewRequest message contents (fst (device.createContext Request Span mh request)) = Ok dr.
Proof.
  split.
  - serve_cases; observe_all; cbn; lia.
  - intros dr.
    serve_cases; observe_all; intros Hdr; try discriminate Hdr; injection Hdr as <-.
    all: split; [reflexivity|]; eexists; eexists; repeat split; eauto.
Qed.

(** X4: A failure of the device encoders is a 500 that names the error; no
    device request is built and the router is not called. *)
Lemma ServeHTTP_device_encode_failure (mh : device.MessageHandler Request Span)
    (w0 : ResponseWriter error) (request : Go.Request error)
    (message : wrp.Message) (pool : device.EncoderPool Span) (err : error) :
  failure (Body request) = None ->
  device.DecodeBytes (device.RequestDecoders mh) (content (Body request)) = Ok message ->
  device.DeviceEncoders mh = Some pool ->
  device.EncodeBytes pool message = Fail err ->
  device.written w0 (serve mh w0 request)
  = [WriteHeader 500;
     Write (bytes_of ("Could not encode WRP message: " ++ Go.Error err))]
  /\ device.constructed (serve mh w0 request) = []
  /\ device.routed (serve mh w0 request) = [].
Proof.
  intros Hread Hdecode Hpool Hencode.
  serve_cases; observe_all; repeat split; reflexivity.
Qed.

(** X5: A failure of [NewRequest] is a 400 that names the error, and the router
    is not called. *)
Lemma ServeHTTP_new_request_failure (mh : device.MessageHandler Request Span)
    (w0 : ResponseWriter error) (request : Go.Request error)
    (message : wrp.Message) (contents : bytes) (ctx : Context) (err : error) :
  device.constructed (serve mh w0 request) = [(message, contents, ctx)] ->
  NewRequest message contents ctx = Fail err ->
  device.written w0 (serve mh w0 request)
  = [WriteHeader 400;
     Write (bytes_of ("Could not create device request: " ++ Go.Error err))]
  /\ device.routed (serve mh w0 request) = [].
Proof.
  serve_cases; observe_all; intros Hbuilt Hnew;
    try discriminate Hbuilt; injection Hbuilt as <- <- <-; try congruence.
  all: match goal with
       | Hk : NewRequest _ _ _ = Fail _ |- _ =>
           rewrite Hk in Hnew; injection Hnew as <-
       end.
  all: split; reflexivity.
Qed.

(** X6: A body that cannot be read is a 400 that names the error, and no
    collaborator is called, not even the decoder; a body that cannot be
    decoded is a 400 that names the decoder's error, and nothing but the
    decoder is called. *)
Lemma ServeHTTP_bad_body (mh : device.MessageHandler Request Span)
    (w0 : ResponseWriter error) (request : Go.Request error) (err : error) :
  (failure (Body request) = Some err ->
   device.written w0 (serve mh w0 request)
   = [WriteHeader 400; Write (bytes_of ("Could not decode WRP message: " ++ Go.Error err))]
   /\ device.calls (serve mh w0 request) = [])
  /\ (failure (Body request) = None ->
      device.DecodeBytes (device.RequestDecoders mh) (content (Body request)) = Fail err ->
      device.written w0 (serve mh w0 request)
      = [WriteHeader 400; Write (bytes_of ("Could not decode WRP message: " ++ Go.Error err))]
      /\ device.calls (serve mh w0 request)
         = [device.DecodeBytesCall (content (Body request))]).
Proof.
  split.
  - intros Hread. serve_cases; observe_all; split; reflexivity.
  - intros Hread Hdecode. serve_cases; observe_all; split; reflexivity.
Qed.


(** X8: A response without error and response encoders: the content type
    is set to that of the encoders' format, and the response is handed to
    the encoder.  The calls made on the response are the encoder's writes
    and no other; when the encoder returns an error it is logged, once, and
    when it returns none nothing is logged. *)
Lemma ServeHTTP_encodes_response (mh : device.MessageHandler Request Span)
    (w0 : ResponseWriter error) (request : Go.Request error)
    (dr : Request) (resp : device.Response Span) (pool : device.EncoderPool Span) :
  device.routed (serve mh w0 request) = [dr] ->
  device.Router mh dr = (Some resp, None) ->
  device.Error resp = None ->
  device.ResponseEncoders mh = Some pool ->
  let sink := fun n => WriteErr w0 (length (Calls w0) + n) in
  RespHeader (device.response (serve mh w0 request))
  = Header_Set "Content-Type" (wrp.ContentType (device.EncoderPool_Format pool)) (RespHeader w0)
  /\ device.answered (serve mh w0 request) = [resp]
  /\ device.written w0 (serve mh w0 request)
     = List.map Write (fst (device.Encode pool resp sink))
  /\ device.logged (serve mh w0 request)
     = match snd (device.Encode pool resp sink) with
       | Some err => [("Error while encoding WRP response: " ++ Go.Error err)%string]
       | None => []
       end.
Proof.
  intros Hdr Hroute Herr Hpool. cbv zeta. revert Hdr.
  serve_cases; observe_all; unfold device.answered; cbn [device.calls omap]; intros Hdr;
    try discriminate Hdr; injection Hdr as ->; try congruence.
  all: match goal with
       | Hr : device.Router _ _ = (Some _, None) |- _ =>
           rewrite Hr in Hroute; injection Hroute as ->
       end.
  all: try congruence.
  all: repeat match goal with
       | Hk : device.Encode _ _ _ = _ |- _ => rewrite Hk in *
       end.
  all: cbn [fst snd] in *; repeat split; try reflexivity; unfold Sprintf_s, fmt_s;
    congruence.
Qed.

(** X9: A response without error and no response encoders: the contents of the
    device's response are written as they are, as Msgpack. *)
Lemma ServeHTTP_writes_raw_contents (mh : device.MessageHandler Request Span)
    (w0 : ResponseWriter error) (request : Go.Request error)
    (dr : Request) (resp : device.Response Span) :
  device.routed (serve mh w0 request) = [dr] ->
  device.Router mh dr = (Some resp, None) ->
  device.Error resp = None ->
  device.ResponseEncoders mh = None ->
  RespHeader (device.response (serve mh w0 request))
  = Header_Set "Content-Type" (wrp.ContentType wrp.Msgpack) (RespHeader w0)
  /\ device.written w0 (serve mh w0 request) = [Write (device.Contents resp)].
Proof.
  intros Hdr Hroute Herr Hpool. revert Hdr.
  serve_cases; observe_all; intros Hdr;
    try discriminate Hdr; injection Hdr as ->; try congruence.
  all: match goal with
       | Hr : device.Router _ _ = (Some _, None) |- _ =>
           rewrite Hr in Hroute; injection Hroute as ->
       end.
  all: try congruence.
  all: repeat split; reflexivity.
Qed.

(** X10: The context of the device request: the request's own context unless the
    handler has a positive timeout, in which case it is that context under
    the timeout; a zero or negative timeout sets no deadline. *)
Lemma ServeHTTP_context (mh : device.MessageHandler Request Span)
    (w0 : ResponseWriter error) (request : Go.Request error)
    (message : wrp.Message) (contents : bytes) (ctx : Context) :
  device.constructed (serve mh w0 request) = [(message, contents, ctx)] ->
  ((0 < device.Timeout mh)%Z ->
   ctx = WithTimeout (ReqContext request) (device.Timeout mh))
  /\ ((device.Timeout mh <= 0)%Z -> ctx = ReqContext request).
Proof.
  serve_cases; observe_all; intros Hbuilt;
    try discriminate Hbuilt; injection Hbuilt as <- <- <-.
  all: split; intros Ht; try reflexivity; exfalso.
  all: match goal with
       | Hb : (0 <? _)%Z = true |- _ => apply Z.ltb_lt in Hb; lia
       | Hb : (0 <? _)%Z = false |- _ => apply Z.ltb_ge in Hb; lia
       end.
Qed.

End ServeHTTP_facts.

(** ** device: the listing handler *)
Section Listing_facts.
Context {error : Type} `{!GoError error, !MIME}.
Variable Interface : Type.
Variable ID : Interface -> string.
Variable json_Marshal : Interface -> result error bytes.

#[local] Abbreviation ListState := (device.ListState (error := error) Interface).
#[local] Abbreviation start := (device.start (error := error) Interface).
#[local] Abbreviation thread_step := (device.thread_step Interface ID json_Marshal).
#[local] Abbreviation step := (device.step Interface ID json_Marshal).
#[local] Abbreviation steps := (device.steps Interface ID json_Marshal).
#[local] Abbreviation run := (device.run Interface ID json_Marshal).
#[local] Abbreviation entry := (device.entry Interface ID json_Marshal).
#[local] Abbreviation entries := (device.entries Interface ID json_Marshal).
#[local] Abbreviation listing := (device.listing Interface ID json_Marshal).
#[local] Abbreviation ahead := (device.ahead Interface ID json_Marshal).
#[local] Abbreviation on_course := (device.on_course Interface ID json_Marshal).

Ltac step_cases Hmove :=
  unfold device.thread_step, device.handler_step, device.goroutine_step in Hmove;
  repeat match type of Hmove with
         | context [match ?x with _ => _ end] => destruct x eqn:?
         end;
  try discriminate Hmove;
  injection Hmove as <-.

Lemma start_on_course (manager : device.Manager Interface) (w0 : ResponseWriter error) :
  WriteErr w0 (length (Calls w0)) = None ->
  on_course (Calls w0) (device.VisitAll manager) (start manager w0).
Proof.
  intros Hok. unfold device.on_course, device.start, ResponseWriter_Write, setHeader, record_call.
  cbn [WriteErr Calls]. rewrite Hok.
  split.
  - split; cbn; auto.
  - unfold device.ahead, device.queued, device.listing. cbn.
    rewrite <- app_assoc. reflexivity.
Qed.

Lemma step_on_course (base : list WriterCall) (all : list Interface) (s s' : ListState) :
  on_course base all s -> step s s' -> on_course base all s'.
Proof.
  intros [[Hh Hg] Hout] [t Hmove].
  destruct s as [h g buf cl nd out logs].
  unfold device.ahead, device.queued in Hout.
  cbn [device.handler device.goroutine device.devices device.closed
       device.needsDelimiter device.output device.messages] in *.
  destruct t; step_cases Hmove.
  all: unfold device.on_course, device.coherent, device.ahead, device.queued,
         ResponseWriter_Flush, ResponseWriter_Write, record_call.
  all: cbn [device.handler device.goroutine device.devices device.closed
            device.needsDelimiter device.output device.messages Calls fst] in *.
  all: subst.
  all: try (destruct h; try (destruct Hh; discriminate); try discriminate).
  all: try (destruct g; try contradiction; try (destruct Hg; discriminate)).
  all: cbn [device.entries app] in *.
  all: rewrite <- ?app_assoc in *; cbn [app] in *; rewrite ?app_nil_r in *.
  all: try (split; [tauto | exact Hout]).
  all: repeat match goal with Hc : _ /\ _ |- _ => destruct Hc end; subst; try discriminate.
  all: cbn [device.entries app] in *; rewrite ?app_nil_r in *.
  all: split; [tauto | exact Hout].
Qed.

Lemma steps_on_course (base : list WriterCall) (all : list Interface) (s s' : ListState) :
  on_course base all s -> steps s s' -> on_course base all s'.
Proof.
  intros Hs Hrun. induction Hrun as [s | s1 s2 s3 _ IH Hstep].
  - exact Hs.
  - eapply step_on_course; [apply IH; exact Hs | exact Hstep].
Qed.

(** Once the handler has returned, nothing is left to write. *)
Lemma returned_complete (base : list WriterCall) (all : list Interface) (s : ListState) :
  on_course base all s -> device.handler s = device.Returned ->
  Calls (device.output s) = base ++ listing all.
Proof.
  intros [[Hh Hg] Hout] Hret. unfold device.ahead, device.queued in Hout.
  rewrite Hret in Hh, Hout. destruct Hh as [_ Hfin]. rewrite Hfin in Hg, Hout.
  destruct Hg as [_ Hbuf]. rewrite Hbuf in Hout. cbn in Hout.
  rewrite app_nil_r in Hout. exact Hout.
Qed.

(** Until the handler returns, the closing token is still ahead: what has
    been written is a prefix of the opening token and the entries. *)
Lemma closing_token_last (base : list WriterCall) (all : list Interface) (s : ListState) :
  on_course base all s -> device.handler s <> device.Returned ->
  exists rest,
    Calls (device.output s) ++ rest
    = base ++ [Write (bytes_of device.openingToken)] ++ entries false all.
Proof.
  intros [_ Hout] Hnot. unfold device.ahead in Hout.
  destruct (device.handler s) eqn:Hh; try congruence.
  all: unfold device.listing in Hout; rewrite !app_assoc in Hout;
    apply app_inv_tail in Hout; rewrite <- !app_assoc in Hout;
    eexists; exact Hout.
Qed.

(** No deadlock: short of the handler's return, some thread can move. *)
Lemma coherent_progress (s : ListState) :
  device.coherent s -> device.handler s <> device.Returned ->
  exists t s', thread_step t s = Some s'.
Proof.
  intros [Hh Hg] Hnot. destruct s as [h g buf cl nd out logs].
  cbn [device.handler device.goroutine device.devices device.closed
       device.needsDelimiter device.output device.messages] in *.
  destruct h as [[|d pending]| |]; try congruence.
  - exists device.HandlerThread. eexists. reflexivity.
  - destruct (length buf <? device.capacity)%nat eqn:Hroom.
    + exists device.HandlerThread. eexists.
      unfold device.thread_step, device.handler_step.
      cbn [device.handler device.devices]. rewrite Hroom. reflexivity.
    + apply Nat.ltb_ge in Hroom. unfold device.capacity in Hroom.
      exists device.GoroutineThread.
      destruct g; try contradiction.
      * destruct buf as [|b buf]; [cbn in Hroom; lia|]. eexists. reflexivity.
      * eexists. reflexivity.
      * eexists. reflexivity.
      * destruct Hg; congruence.
  - destruct g; try contradiction.
    + exists device.GoroutineThread. destruct buf as [|b buf].
      * eexists. unfold device.thread_step, device.goroutine_step.
        cbn [device.goroutine device.devices device.closed]. rewrite Hh. reflexivity.
      * eexists. reflexivity.
    + exists device.GoroutineThread. eexists. reflexivity.
    + exists device.GoroutineThread. eexists. reflexivity.
    + exists device.HandlerThread. eexists. reflexivity.
Qed.

(** Every step uses up part of the measure, so every run is finite. *)
Lemma step_decreases (s s' : ListState) :
  step s s' -> device.measure s' < device.measure s.
Proof.
  intros [t Hmove]. destruct s as [h g buf cl nd out logs].
  destruct t; step_cases Hmove; unfold device.measure;
    cbn [device.handler device.goroutine device.devices device.closed
         device.needsDelimiter device.output device.messages] in *;
    subst; rewrite ?length_app; cbn [length]; lia.
Qed.


Lemma decide_handler (s : ListState) :
  device.handler s = device.Returned \/ device.handler s <> device.Returned.
Proof.
  destruct (device.handler s); [right; discriminate | right; discriminate | left; reflexivity].
Qed.

Lemma steps_front (s1 s2 s3 : ListState) :
  step s1 s2 -> steps s2 s3 -> steps s1 s3.
Proof.
  intros Hstep Hrun. induction Hrun as [s | s2 s3 s4 _ IH Hlast].
  - eapply device.steps_more; [apply device.steps_refl | exact Hstep].
  - eapply device.steps_more; [apply IH; exact Hstep | exact Hlast].
Qed.

Lemma measure_zero_returned (s : ListState) :
  device.measure s = 0 -> device.handler s = device.Returned.
Proof.
  unfold device.measure. destruct (device.handler s); [lia | lia | reflexivity].
Qed.

(** Under either scheduler, fuel for [measure s] steps takes a state that
    is on course to the handler's return. *)
Lemma run_completes (base : list WriterCall) (all : list Interface) (t : device.Thread)
    (fuel : nat) :
  forall s : ListState,
    on_course base all s -> device.measure s <= fuel ->
    steps s (run t fuel s) /\ device.handler (run t fuel s) = device.Returned.
Proof.
  induction fuel as [|fuel IH]; intros s Hs Hm.
  - cbn. split; [apply device.steps_refl | apply measure_zero_returned; lia].
  - cbn [device.run].
    destruct (thread_step t s) as [s'|] eqn:Hfirst.
    + assert (Hstep : step s s') by (econstructor; exact Hfirst).
      pose proof (step_decreases s s' Hstep) as Hlt.
      destruct (IH s' (step_on_course base all s s' Hs Hstep) ltac:(lia)) as [Hrun Hret].
      split; [eapply steps_front; eassumption | exact Hret].
    + destruct (thread_step
                  match t with
                  | device.HandlerThread => device.GoroutineThread
                  | device.GoroutineThread => device.HandlerThread
                  end s) as [s'|] eqn:Hsecond.
      * assert (Hstep : step s s') by (econstructor; exact Hsecond).
        pose proof (step_decreases s s' Hstep) as Hlt.
        destruct (IH s' (step_on_course base all s s' Hs Hstep) ltac:(lia)) as [Hrun Hret].
        split; [eapply steps_front; eassumption | exact Hret].
      * split; [apply device.steps_refl|].
        destruct (decide_handler s) as [Hret|Hnot]; [exact Hret|].
        destruct (coherent_progress s (proj1 Hs) Hnot) as [t' [s' Hmove]].
        destruct t, t'; cbv iota in Hsecond;
          first [rewrite Hmove in Hfirst | rewrite Hmove in Hsecond]; discriminate.
Qed.

Lemma body_of_app (xs ys : list WriterCall) :
  body_of (xs ++ ys) = body_of xs ++ body_of ys.
Proof.
  induction xs as [|[code|data|] xs IH]; cbn; rewrite ?IH, ?app_assoc; reflexivity.
Qed.

Lemma body_of_entries_delimited (ds : list Interface) :
  body_of (entries true ds) = flat_map (fun d => bytes_of "," ++ entry d) ds.
Proof.
  induction ds as [|d ds IH]; [reflexivity|].
  cbn [device.entries flat_map]. rewrite !body_of_app. cbn [body_of app].
  rewrite IH, app_nil_r, <- app_assoc. reflexivity.
Qed.

Lemma join_cons (sep p : bytes) (ps : list bytes) :
  device.join sep (p :: ps) = p ++ flat_map (fun q => sep ++ q) ps.
Proof.
  revert p. induction ps as [|q ps IH]; intros p.
  - cbn. rewrite app_nil_r. reflexivity.
  - change (device.join sep (p :: q :: ps)) with (p ++ sep ++ device.join sep (q :: ps)).
    rewrite IH. cbn [flat_map]. rewrite <- app_assoc. reflexivity.
Qed.

(** The bytes of a complete listing: the opening token, the entries with a
    comma between consecutive ones, the closing token. *)
Lemma body_of_listing (ds : list Interface) :
  body_of (listing ds)
  = bytes_of device.openingToken
      ++ device.join (bytes_of ",") (map entry ds)
      ++ bytes_of device.closingToken.
Proof.
  unfold device.listing. rewrite !body_of_app. cbn [body_of]. rewrite !app_nil_r.
  f_equal. f_equal.
  destruct ds as [|d ds]; [reflexivity|].
  cbn [map]. rewrite join_cons.
  change (entries false (d :: ds)) with (Write (entry d) :: Flush :: entries true ds).
  cbn [body_of]. rewrite body_of_entries_delimited. f_equal.
  clear d. induction ds as [|d ds IH]; [reflexivity|].
  cbn [flat_map map]. rewrite IH. reflexivity.
Qed.

(** C5: provided the write of the opening token succeeds, for a manager
    that yields any number of devices the handler's calls on the response
    are, in every schedule of the two goroutines, the opening token, for
    each device an entry followed by a flush, with a comma before every
    entry but the first, and then the closing token.  Until the handler
    returns only a prefix of the opening token and the entries has been
    written; no reachable state is stuck short of the return; every step
    brings the return nearer; and the run under either scheduler reaches
    it.  The bytes written by a handler that has returned are the opening
    token, the entries with a comma between consecutive ones, and the
    closing token, the entry of a device being the output of
    [json.Marshal] for it or, when that fails, the failure message between
    two double quotes. *)
Theorem listing_streams_every_device (manager : device.Manager Interface)
    (w0 : ResponseWriter error) :
  WriteErr w0 (length (Calls w0)) = None ->
  let s0 := start manager w0 in
  let all := device.VisitAll manager in
  (forall s, steps s0 s -> device.handler s = device.Returned ->
             Calls (device.output s) = Calls w0 ++ listing all)
  /\ (forall s, steps s0 s -> device.handler s <> device.Returned ->
                exists rest,
                  Calls (device.output s) ++ rest
                  = Calls w0 ++ [Write (bytes_of device.openingToken)] ++ entries false all)
  /\ (forall s, steps s0 s -> device.handler s <> device.Returned ->
                exists s', step s s')
  /\ (forall s s', step s s' -> device.measure s' < device.measure s)
  /\ (forall t, steps s0 (run t (device.measure s0) s0)
                /\ device.handler (run t (device.measure s0) s0) = device.Returned)
  /\ body_of (listing all)
     = bytes_of device.openingToken
         ++ device.join (bytes_of ",") (map entry all)
         ++ bytes_of device.closingToken
  /\ (forall s, steps s0 s -> device.handler s = device.Returned ->
                body_of (drop (length (Calls w0)) (Calls (device.output s)))
                = bytes_of ("{" ++ quote ++ "device" ++ quote ++ ": [")
                    ++ device.join (bytes_of ",")
                         (map (fun d =>
                                 match json_Marshal d with
                                 | Ok data => data
                                 | Fail err =>
                                     bytes_of (quote
                                               ++ ("Unable to marshal device [" ++ ID d
                                                   ++ "] as JSON: " ++ Go.Error err)
                                               ++ quote)
                                 end) all)
                    ++ bytes_of "]}").
Proof.
  intros Hok. cbv zeta.
  pose proof (start_on_course manager w0 Hok) as Hstart.
  repeat split.
  - intros s Hrun Hret. eapply returned_complete; [|exact Hret].
    eapply steps_on_course; eassumption.
  - intros s Hrun Hnot. eapply closing_token_last; [|exact Hnot].
    eapply steps_on_course; eassumption.
  - intros s Hrun Hnot.
    destruct (coherent_progress s) as [t [s' Hmove]]; [|exact Hnot|].
    + apply (steps_on_course _ _ _ _ Hstart Hrun).
    + exists s'. econstructor. exact Hmove.
  - apply step_decreases.
  - eapply run_completes; [exact Hstart | lia].
  - eapply run_completes; [exact Hstart | lia].
  - apply body_of_listing.
  - intros s Hrun Hret.
    rewrite (returned_complete _ _ _ (steps_on_course _ _ _ _ Hstart Hrun) Hret).
    rewrite drop_app_length. apply body_of_listing.
Qed.

(** *** Further properties of the listing *)

#[local] Abbreviation failures := (device.failures Interface ID json_Marshal).

Lemma run_is_steps (t : device.Thread) (fuel : nat) :
  forall s : ListState, steps s (run t fuel s).
Proof.
  induction fuel as [|fuel IH]; intros s; [apply device.steps_refl|].
  cbn [device.run].
  destruct (thread_step t s) as [s'|] eqn:Hfirst.
  - eapply steps_front; [econstructor; exact Hfirst | apply IH].
  - destruct (thread_step
                match t with
                | device.HandlerThread => device.GoroutineThread
                | device.GoroutineThread => device.HandlerThread
                end s) as [s'|] eqn:Hsecond.
    + eapply steps_front; [econstructor; exact Hsecond | apply IH].
    + apply device.steps_refl.
Qed.

(** X11: Back pressure: in no state that the handler can reach does the channel
    hold more than its capacity of 100 devices, however many the manager
    yields and however slowly the goroutine drains them. *)
Lemma channel_within_capacity (manager : device.Manager Interface)
    (w0 : ResponseWriter error) (s : ListState) :
  steps (start manager w0) s -> length (device.devices s) <= device.capacity.
Proof.
  intros Hrun.
  assert (Hstart : length (device.devices (start manager w0)) <= device.capacity).
  { unfold device.start, ResponseWriter_Write, setHeader. cbn [fst snd WriteErr Calls].
    destruct (WriteErr w0 (length (Calls w0))); cbn; unfold device.capacity; lia. }
  induction Hrun as [s | s1 s2 s3 _ IH [t Hmove]]; [exact Hstart|].
  specialize (IH Hstart).
  destruct s2 as [h g buf cl nd out logs].
  cbn [device.devices] in IH.
  destruct t; step_cases Hmove; cbn [device.devices] in *;
    subst; rewrite ?length_app; cbn [length] in *;
    try match goal with
        | Hroom : (_ <? _)%nat = true |- _ => apply Nat.ltb_lt in Hroom
        end;
    unfold device.capacity in *; lia.
Qed.

Lemma nothing_runs_unspawned (s s' : ListState) :
  device.handler s = device.Returned -> device.goroutine s = device.Unspawned ->
  steps s s' -> s' = s.
Proof.
  intros Hh Hg Hrun. induction Hrun as [s | s1 s2 s3 _ IH [t Hmove]]; [reflexivity|].
  rewrite (IH Hh Hg) in Hmove.
  destruct t; unfold device.thread_step, device.handler_step, device.goroutine_step in Hmove;
    rewrite ?Hh, ?Hg in Hmove; discriminate Hmove.
Qed.

(** X12: When the opening token cannot be written the handler gives up at
    once: it has made that one call on the response, logged the error and
    returned; no goroutine runs, so no state follows and neither an entry
    nor the closing token is ever written. *)
Lemma opening_failure_ends_the_listing (manager : device.Manager Interface)
    (w0 : ResponseWriter error) (err : error) :
  WriteErr w0 (length (Calls w0)) = Some err ->
  let s0 := start manager w0 in
  device.handler s0 = device.Returned
  /\ Calls (device.output s0) = Calls w0 ++ [Write (bytes_of device.openingToken)]
  /\ device.messages s0 = [("Unable to write content: " ++ Go.Error err)%string]
  /\ forall s, steps s0 s -> s = s0.
Proof.
  intros Hfail. cbv zeta.
  assert (Hstart : start manager w0
                   = {| device.handler := device.Returned;
                        device.goroutine := device.Unspawned;
                        device.devices := [];
                        device.closed := false;
                        device.needsDelimiter := false;
                        device.output :=
                          record_call (Write (bytes_of device.openingToken))
                            (setHeader (Header_Set "Content-Type" "application/json") w0);
                        device.messages := [Sprintf_s "Unable to write content: " (Some err)] |}).
  { unfold device.start, ResponseWriter_Write, setHeader. cbn [WriteErr Calls].
    rewrite Hfail. reflexivity. }
  split; [rewrite Hstart; reflexivity|].
  split; [rewrite Hstart; reflexivity|].
  split; [rewrite Hstart; reflexivity|].
  intros s Hrun. apply nothing_runs_unspawned; [| |exact Hrun]; rewrite Hstart; reflexivity.
Qed.


Lemma failures_cons (d : Interface) (ds : list Interface) :
  failures (d :: ds)
  = match json_Marshal d with
    | Fail err => [device.marshalFailure Interface ID d err]
    | Ok _ => []
    end ++ failures ds.
Proof.
  unfold device.failures. cbn. destruct (json_Marshal d); reflexivity.
Qed.

(** The log keeps pace with the entries: what is logged so far, followed
    by the failures of the devices whose entry is not written yet, is the
    list of the failures of all devices. *)
Lemma step_logs (all : list Interface) (s s' : ListState) :
  device.messages s ++ failures (device.unwritten s) = failures all ->
  step s s' ->
  device.messages s' ++ failures (device.unwritten s') = failures all.
Proof.
  intros Hlog [t Hmove]. destruct s as [h g buf cl nd out logs].
  unfold device.unwritten, device.queued in *.
  cbn [device.handler device.goroutine device.devices device.messages] in *.
  destruct t; step_cases Hmove;
    cbn [device.handler device.goroutine device.devices device.messages] in *;
    subst; rewrite <- ?app_assoc in *; cbn [app] in *; try exact Hlog.
  all: rewrite failures_cons in Hlog;
    match goal with
    | Hm : json_Marshal _ = _ |- _ => rewrite Hm in Hlog
    end;
    cbn [app] in Hlog; rewrite <- ?app_assoc; exact Hlog.
Qed.

(** X14: Every marshalling failure is logged, once and in the order of the
    visit: when the handler has returned, the log holds exactly one message
    for each device whose marshalling failed, and nothing else. *)
Lemma listing_logs_every_failure (manager : device.Manager Interface)
    (w0 : ResponseWriter error) (s : ListState) :
  WriteErr w0 (length (Calls w0)) = None ->
  steps (start manager w0) s ->
  device.handler s = device.Returned ->
  device.messages s = failures (device.VisitAll manager).
Proof.
  intros Hok Hrun Hret.
  assert (Hlog : device.messages s ++ failures (device.unwritten s)
                 = failures (device.VisitAll manager)).
  { clear Hret.
    assert (Hstart : device.messages (start manager w0)
                       ++ failures (device.unwritten (start manager w0))
                     = failures (device.VisitAll manager)).
    { unfold device.start, ResponseWriter_Write, setHeader. cbn [fst snd WriteErr Calls].
      rewrite Hok. reflexivity. }
    induction Hrun as [s | s1 s2 s3 _ IH Hstep]; [exact Hstart|].
    eapply step_logs; [apply IH; exact Hstart | exact Hstep]. }
  destruct (steps_on_course _ _ _ _ (start_on_course manager w0 Hok) Hrun) as [[Hh Hg] _].
  unfold device.unwritten, device.queued in Hlog.
  rewrite Hret in Hh, Hlog. destruct Hh as [_ Hfin]. rewrite Hfin in Hg, Hlog.
  destruct Hg as [_ Hbuf]. rewrite Hbuf in Hlog. cbn in Hlog.
  rewrite app_nil_r in Hlog. exact Hlog.
Qed.

Lemma entries_flushes (delimit : bool) (ds : list Interface) :
  length (List.filter device.is_Flush (entries delimit ds)) = length ds.
Proof.
  revert delimit. induction ds as [|d ds IH]; intros delimit; [reflexivity|].
  cbn [device.entries]. rewrite !List.filter_app, !length_app, IH.
  destruct delimit; cbn; lia.
Qed.

Lemma entries_writes (delimit : bool) (ds : list Interface) :
  length (List.filter device.is_Write (entries delimit ds))
  = 2 * length ds - (if delimit then 0 else 1).
Proof.
  revert delimit. induction ds as [|d ds IH]; intros delimit; [destruct delimit; reflexivity|].
  cbn [device.entries]. rewrite !List.filter_app, !length_app, IH.
  destruct delimit; cbn; lia.
Qed.

(** X15: The handler flushes once per device and once at the end: a finished
    listing of N devices has made N + 1 calls of [Flush] and, for its two
    tokens, N entries and N - 1 commas, 2N + 1 calls of [Write] (2 when
    there is no device). *)
Lemma listing_call_counts (manager : device.Manager Interface)
    (w0 : ResponseWriter error) (s : ListState) :
  WriteErr w0 (length (Calls w0)) = None ->
  steps (start manager w0) s ->
  device.handler s = device.Returned ->
  let made := drop (length (Calls w0)) (Calls (device.output s)) in
  let N := length (device.VisitAll manager) in
  length (List.filter device.is_Flush made) = N + 1
  /\ length (List.filter device.is_Write made) = 2 + (2 * N - 1).
Proof.
  intros Hok Hrun Hret. cbv zeta.
  rewrite (returned_complete _ _ _
             (steps_on_course _ _ _ _ (start_on_course manager w0 Hok) Hrun) Hret).
  rewrite drop_app_length. unfold device.listing.
  rewrite !List.filter_app, !length_app, entries_flushes, entries_writes.
  cbn. lia.
Qed.

End Listing_facts.

(** * The properties at work on concrete collaborators *)

Example listing_of_250_devices :
  length (device.VisitAll fixtures.crowd) = 250
  /\ device.handler (fixtures.listed device.HandlerThread fixtures.crowd) = device.Returned
  /\ Calls (device.output (fixtures.listed device.HandlerThread fixtures.crowd))
     = Calls (device.output (fixtures.listed device.GoroutineThread fixtures.crowd))
  /\ length (List.filter (fun c => match c with Flush => true | _ => false end)
               (Calls (device.output (fixtures.listed device.HandlerThread fixtures.crowd))))
     = 251
  /\ json.Valid (body_of (Calls (device.output
                                   (fixtures.listed device.HandlerThread fixtures.crowd))))
     = true.
Proof. vm_compute. repeat split. Qed.

Example listing_with_unquoted_failure :
  json.Valid (body_of (Calls (device.output
                                (fixtures.listed device.HandlerThread
                                   (fixtures.three fixtures.valueError))))) = true.
Proof. vm_compute. reflexivity. Qed.

(** C10, at a device whose marshalling fails with a text that holds a
    double quote: the listing runs to its end, the failing device has its
    one entry between the two others, that entry is the failure message
    between two double quotes, and what was written is not a JSON text. *)
Theorem listing_unescaped_failure_is_not_json :
  let s := fixtures.listed device.HandlerThread (fixtures.three fixtures.syntaxError) in
  let bad := fixtures.faulty "mac:665544332211" fixtures.syntaxError in
  device.handler s = device.Returned
  /\ Calls (device.output s)
     = device.listing fixtures.gadget fixtures.name fixtures.marshal
         (device.VisitAll (fixtures.three fixtures.syntaxError))
  /\ device.entry fixtures.gadget fixtures.name fixtures.marshal bad
     = bytes_of (quote ++ device.marshalFailure fixtures.gadget fixtures.name bad
                            fixtures.syntaxError ++ quote)
  /\ device.messages s
     = [device.marshalFailure fixtures.gadget fixtures.name bad fixtures.syntaxError]
  /\ json.Valid (body_of (Calls (device.output s))) = false.
Proof. vm_compute. repeat split. Qed.

Lemma EncodeRequest_reuses_or_transcodes_witness :
  (wrphttp.encoderCalls
     (wrphttp.EncodeRequest fixtures.DestinationHeader wrp.Msgpack fixtures.blank fixtures.cached)
   = []
   /\ Body (wrphttp.component
              (wrphttp.EncodeRequest fixtures.DestinationHeader wrp.Msgpack fixtures.blank
                 fixtures.cached))
      = NewReader (bytes_of "raw"))
  /\ wrphttp.encoderCalls
       (wrphttp.EncodeRequest fixtures.DestinationHeader wrp.JSON fixtures.blank fixtures.cached)
     = [wrphttp.EncodeCall wrp.JSON fixtures.ping].
Proof.
  split.
  - destruct (proj1 (EncodeRequest_reuses_or_transcodes fixtures.DestinationHeader
                       wrp.Msgpack fixtures.blank fixtures.cached)) as (Hc & _ & Hb & _).
    + split; [discriminate | reflexivity].
    + split; [exact Hc | exact Hb].
  - destruct (proj2 (EncodeRequest_reuses_or_transcodes fixtures.DestinationHeader
                       wrp.JSON fixtures.blank fixtures.cached)) as (Hc & _).
    + intros [_ Hf]. discriminate Hf.
    + exact Hc.
Defined.

Lemma request_encoders_set_destination_witness :
  Header_Get fixtures.DestinationHeader
    (ReqHeader (wrphttp.component
                  (wrphttp.EncodeRequest fixtures.DestinationHeader wrp.Msgpack fixtures.blank
                     fixtures.cached)))
  = "mac:112233445566"
  /\ Header_Get fixtures.DestinationHeader
       (ReqHeader (fst (wrphttp.ClientEncodeRequestBody fixtures.DestinationHeader wrp.JSON
                          [(fixtures.DestinationHeader, ["mac:000000000000"])]
                          fixtures.blank fixtures.pingRequest)))
     = "mac:112233445566"
  /\ Header_Get fixtures.DestinationHeader
       (ReqHeader (fst (wrphttp.ClientEncodeRequestHeaders fixtures.DestinationHeader
                          fixtures.payloadOnly fixtures.MessageTypeHeader
                          fixtures.TransactionUuidHeader fixtures.friendly
                          [(fixtures.DestinationHeader, ["mac:000000000000"])]
                          fixtures.blank fixtures.pingRequest)))
     = "mac:112233445566".
Proof.
  destruct (request_encoders_set_destination fixtures.DestinationHeader fixtures.payloadOnly
              fixtures.MessageTypeHeader fixtures.TransactionUuidHeader fixtures.friendly
              wrp.JSON [(fixtures.DestinationHeader, ["mac:000000000000"])]
              fixtures.blank fixtures.cached fixtures.pingRequest)
    as (_ & Hbody & Hheaders); try discriminate.
  destruct (request_encoders_set_destination fixtures.DestinationHeader fixtures.payloadOnly
              fixtures.MessageTypeHeader fixtures.TransactionUuidHeader fixtures.friendly
              wrp.Msgpack [] fixtures.blank fixtures.cached fixtures.pingRequest)
    as (Hentity & _ & _); try discriminate.
  split; [apply Hentity; reflexivity|].
  split; [apply Hbody; reflexivity | apply Hheaders; reflexivity].
Defined.

Lemma ServeHTTP_status_follows_outcome_witness :
  status_of (device.written fixtures.recorder (fixtures.served fixtures.transcoding EmptyString))
  = Some 400%Z
  /\ status_of (device.written fixtures.recorder
                  (fixtures.served fixtures.transcoding "mac:ffffffffffff"))
     = Some 404%Z
  /\ status_of (device.written fixtures.recorder
                  (fixtures.served fixtures.transcoding "mac:aabbccddeeff"))
     = Some 500%Z
  /\ status_of (device.written fixtures.recorder
                  (fixtures.served fixtures.transcoding "mac:665544332211"))
     = Some 500%Z.
Proof.
  split; [|split; [|split]].
  - apply (proj1 (ServeHTTP_status_follows_outcome fixtures.deviceRequest fixtures.NewRequest
                    fixtures.ErrorDeviceNotFound nat fixtures.transcoding fixtures.recorder
                    (fixtures.inbound EmptyString))).
    right. exists fixtures.malformed. reflexivity.
  - eapply (proj1 (proj2 (ServeHTTP_status_follows_outcome fixtures.deviceRequest
                            fixtures.NewRequest fixtures.ErrorDeviceNotFound nat
                            fixtures.transcoding fixtures.recorder
                            (fixtures.inbound "mac:ffffffffffff")))).
    + vm_compute. reflexivity.
    + vm_compute. reflexivity.
  - eapply (proj1 (proj2 (proj2 (ServeHTTP_status_follows_outcome fixtures.deviceRequest
                                   fixtures.NewRequest fixtures.ErrorDeviceNotFound nat
                                   fixtures.transcoding fixtures.recorder
                                   (fixtures.inbound "mac:aabbccddeeff"))))).
    + vm_compute. reflexivity.
    + vm_compute. reflexivity.
    + discriminate.
  - eapply (proj1 (proj2 (proj2 (proj2 (ServeHTTP_status_follows_outcome
                                          fixtures.deviceRequest fixtures.NewRequest
                                          fixtures.ErrorDeviceNotFound nat
                                          fixtures.transcoding fixtures.recorder
                                          (fixtures.inbound "mac:665544332211")))))).
    + vm_compute. reflexivity.
    + vm_compute. reflexivity.
    + discriminate.
Defined.

(** C3, as stated, fails: the router returns a response that carries the
    device's error and a span, and the handler leaves the header map empty
    and writes a text in which the device's error does not occur. *)
Lemma device_failure_text_and_spans_dropped :
  let out := fixtures.served fixtures.transcoding "mac:665544332211" in
  (exists dr resp,
      device.routed out = [dr]
      /\ fixtures.route dr = (Some resp, None)
      /\ device.Error resp = Some fixtures.deviceFailure
      /\ device.Spans resp = [7])
  /\ RespHeader (device.response out) = ∅
  /\ device.written fixtures.recorder out
     = [WriteHeader 500; Write (bytes_of "Device transaction failed: %!s(<nil>)")]
  /\ String.index 0 (Go.Error fixtures.deviceFailure)
       (string_of_list_byte (body_of (device.written fixtures.recorder out)))
     = None.
Proof.
  cbv zeta. split.
  - eexists. eexists. vm_compute. repeat split.
  - vm_compute. repeat split.
Qed.

Lemma device_failure_is_a_plain_500_witness :
  (exists text,
      device.written fixtures.recorder (fixtures.served fixtures.transcoding "mac:665544332211")
      = [WriteHeader 500; Write (bytes_of ("Device transaction failed: " ++ text))])
  /\ device.answered (fixtures.served fixtures.transcoding "mac:665544332211") = []
  /\ RespHeader (fst (wrphttp.ServerEncodeResponseBody nat fixtures.spanHeaders "RFC3339"
                        wrp.Msgpack fixtures.recorder fixtures.pong))
     = Header_Set "Content-Type" "application/msgpack"
         (fixtures.spanHeaders [7] "RFC3339" ∅).
Proof.
  destruct (device_failure_is_a_plain_500 fixtures.deviceRequest fixtures.NewRequest
              fixtures.ErrorDeviceNotFound nat fixtures.spanHeaders
              fixtures.transcoding fixtures.recorder (fixtures.inbound "mac:665544332211")
              {| fixtures.forMessage :=
                   {| wrp.Type_ := 3; wrp.Destination := "mac:665544332211";
                      wrp.TransactionUUID := EmptyString; wrp.Payload := [] |};
                 fixtures.forContents := bytes_of "mac:665544332211";
                 fixtures.forContext := Background |}
              (fixtures.reply
                 {| wrp.Type_ := 3; wrp.Destination := "mac:665544332211";
                    wrp.TransactionUUID := EmptyString; wrp.Payload := [] |}
                 (Some fixtures.deviceFailure))
              "RFC3339" wrp.Msgpack fixtures.recorder fixtures.pong)
    as (_ & Htext & Hnone & Hspans).
  - vm_compute. reflexivity.
  - vm_compute. reflexivity.
  - discriminate.
  - split; [exact Htext|]. split; [exact Hnone | exact Hspans].
Defined.

(** C4, as stated, fails: both pools are Msgpack pools, yet the handler has
    the device encoders encode the message, and what it forwards is their
    output, not the bytes it received. *)
Lemma same_format_is_transcoded_all_the_same :
  let out := fixtures.served fixtures.transcoding " mac:112233445566" in
  device.DecoderPool_Format (device.RequestDecoders fixtures.transcoding)
  = device.EncoderPool_Format fixtures.msgpackEncoders
  /\ device.DeviceEncoders fixtures.transcoding = Some fixtures.msgpackEncoders
  /\ length (device.reencoded out) = 1
  /\ device.forwarded out = [bytes_of "mac:112233445566"]
  /\ device.forwarded out <> [content (Body (fixtures.inbound " mac:112233445566"))].
Proof.
  cbv zeta. repeat split. vm_compute. discriminate.
Qed.

Lemma ServeHTTP_forwarded_contents_witness :
  device.forwarded (fixtures.served fixtures.transcoding " mac:112233445566")
  = [bytes_of "mac:112233445566"]
  /\ device.forwarded (fixtures.served fixtures.passthrough " mac:112233445566")
     = [bytes_of " mac:112233445566"].
Proof.
  split.
  - destruct (ServeHTTP_forwarded_contents fixtures.deviceRequest fixtures.NewRequest
                fixtures.ErrorDeviceNotFound nat fixtures.transcoding fixtures.recorder
                (fixtures.inbound " mac:112233445566")
                {| wrp.Type_ := 3; wrp.Destination := "mac:112233445566";
                   wrp.TransactionUUID := EmptyString; wrp.Payload := [] |}) as [Hsome _].
    + reflexivity.
    + reflexivity.
    + destruct (Hsome fixtures.msgpackEncoders) as [_ Hfwd]; [reflexivity|].
      exact Hfwd.
  - destruct (ServeHTTP_forwarded_contents fixtures.deviceRequest fixtures.NewRequest
                fixtures.ErrorDeviceNotFound nat fixtures.passthrough fixtures.recorder
                (fixtures.inbound " mac:112233445566")
                {| wrp.Type_ := 3; wrp.Destination := "mac:112233445566";
                   wrp.TransactionUUID := EmptyString; wrp.Payload := [] |}) as [_ Hnone].
    + reflexivity.
    + reflexivity.
    + destruct Hnone as [_ Hfwd]; [reflexivity|]. exact Hfwd.
Defined.

Lemma ServeHTTP_nil_response_writes_nothing_witness :
  device.written fixtures.recorder (fixtures.served fixtures.transcoding "mac:000000000000") = []
  /\ RespHeader (device.response (fixtures.served fixtures.transcoding "mac:000000000000")) = ∅.
Proof.
  destruct (ServeHTTP_nil_response_writes_nothing fixtures.deviceRequest fixtures.NewRequest
              fixtures.ErrorDeviceNotFound nat fixtures.transcoding fixtures.recorder
              (fixtures.inbound "mac:000000000000")
              {| fixtures.forMessage :=
                   {| wrp.Type_ := 3; wrp.Destination := "mac:000000000000";
                      wrp.TransactionUUID := EmptyString; wrp.Payload := [] |};
                 fixtures.forContents := bytes_of "mac:000000000000";
                 fixtures.forContext := Background |})
    as (Hw & _ & _ & Hh).
  - vm_compute. reflexivity.
  - vm_compute. reflexivity.
  - split; [exact Hw | exact Hh].
Defined.

Lemma listing_streams_every_device_witness :
  device.handler (fixtures.listed device.GoroutineThread (fixtures.three fixtures.valueError))
  = device.Returned
  /\ Calls (device.output
              (fixtures.listed device.GoroutineThread (fixtures.three fixtures.valueError)))
     = device.listing fixtures.gadget fixtures.name fixtures.marshal
         (device.VisitAll (fixtures.three fixtures.valueError))
  /\ body_of (Calls (device.output
                       (fixtures.listed device.GoroutineThread
                          (fixtures.three fixtures.valueError))))
     = bytes_of fixtures.threeListed.
Proof.
  destruct (listing_streams_every_device fixtures.gadget fixtures.name fixtures.marshal
              (fixtures.three fixtures.valueError) fixtures.recorder)
    as (Hdone & _ & _ & _ & Hrun & _ & Hbody).
  - reflexivity.
  - destruct (Hrun device.GoroutineThread) as [Hsteps Hret].
    split; [exact Hret|]. split; [exact (Hdone _ Hsteps Hret)|].
    exact (Hbody _ Hsteps Hret).
Defined.

(** ** Further properties at work *)

Lemma ServeHTTP_ok_only_for_clean_response_witness :
  exists dr resp,
    device.routed (fixtures.served fixtures.transcoding "mac:112233445566") = [dr]
    /\ fixtures.route dr = (Some resp, None)
    /\ device.Error resp = None.
Proof.
  apply (ServeHTTP_ok_only_for_clean_response fixtures.deviceRequest fixtures.NewRequest
           fixtures.ErrorDeviceNotFound nat fixtures.transcoding fixtures.recorder
           (fixtures.inbound "mac:112233445566")).
  vm_compute. reflexivity.
Defined.

Lemma ServeHTTP_routes_what_it_built_witness :
  failure (Body (fixtures.inbound " mac:112233445566")) = None
  /\ exists message contents,
       fixtures.decode (bytes_of " mac:112233445566") = Ok message
       /\ fixtures.encode message = Ok contents
       /\ fixtures.NewRequest message contents Background
          = Ok {| fixtures.forMessage :=
                     {| wrp.Type_ := 3; wrp.Destination := "mac:112233445566";
                        wrp.TransactionUUID := EmptyString; wrp.Payload := [] |};
                  fixtures.forContents := bytes_of "mac:112233445566";
                  fixtures.forContext := Background |}.
Proof.
  apply (proj2 (ServeHTTP_routes_what_it_built fixtures.deviceRequest fixtures.NewRequest
                  fixtures.ErrorDeviceNotFound nat fixtures.transcoding fixtures.recorder
                  (fixtures.inbound " mac:112233445566"))).
  vm_compute. reflexivity.
Defined.

Lemma ServeHTTP_device_encode_failure_witness :
  device.written fixtures.recorder
    (fixtures.served fixtures.untranscodable "mac:112233445566")
  = [WriteHeader 500;
     Write (bytes_of "Could not encode WRP message: unsupported message type")]
  /\ device.constructed (fixtures.served fixtures.untranscodable "mac:112233445566") = []
  /\ device.routed (fixtures.served fixtures.untranscodable "mac:112233445566") = [].
Proof.
  exact (ServeHTTP_device_encode_failure fixtures.deviceRequest fixtures.NewRequest
           fixtures.ErrorDeviceNotFound nat fixtures.untranscodable fixtures.recorder
           (fixtures.inbound "mac:112233445566")
           {| wrp.Type_ := 3; wrp.Destination := "mac:112233445566";
              wrp.TransactionUUID := EmptyString; wrp.Payload := [] |}
           fixtures.rejectingEncoders fixtures.unsupported
           eq_refl eq_refl eq_refl eq_refl).
Defined.

Lemma ServeHTTP_new_request_failure_witness :
  device.written fixtures.recorder
    (device.serve fixtures.deviceRequest fixtures.refuse fixtures.ErrorDeviceNotFound nat
       fixtures.passthrough fixtures.recorder (fixtures.inbound "mac:112233445566"))
  = [WriteHeader 400;
     Write (bytes_of "Could not create device request: invalid device id")]
  /\ device.routed
       (device.serve fixtures.deviceRequest fixtures.refuse fixtures.ErrorDeviceNotFound nat
          fixtures.passthrough fixtures.recorder (fixtures.inbound "mac:112233445566"))
     = [].
Proof.
  exact (ServeHTTP_new_request_failure fixtures.deviceRequest fixtures.refuse
           fixtures.ErrorDeviceNotFound nat fixtures.passthrough fixtures.recorder
           (fixtures.inbound "mac:112233445566")
           {| wrp.Type_ := 3; wrp.Destination := "mac:112233445566";
              wrp.TransactionUUID := EmptyString; wrp.Payload := [] |}
           (bytes_of "mac:112233445566") Background fixtures.invalidID
           eq_refl eq_refl).
Defined.

Lemma ServeHTTP_bad_body_witness :
  (device.written fixtures.recorder
     (device.serve fixtures.deviceRequest fixtures.NewRequest fixtures.ErrorDeviceNotFound nat
        fixtures.transcoding fixtures.recorder fixtures.unreadable)
   = [WriteHeader 400;
      Write (bytes_of "Could not decode WRP message: connection reset by peer")]
   /\ device.calls
        (device.serve fixtures.deviceRequest fixtures.NewRequest fixtures.ErrorDeviceNotFound
           nat fixtures.transcoding fixtures.recorder fixtures.unreadable)
      = [])
  /\ device.calls (fixtures.served fixtures.transcoding EmptyString)
     = [device.DecodeBytesCall []].
Proof.
  split.
  - exact (proj1 (ServeHTTP_bad_body fixtures.deviceRequest fixtures.NewRequest
                    fixtures.ErrorDeviceNotFound nat fixtures.transcoding fixtures.recorder
                    fixtures.unreadable fixtures.reset) eq_refl).
  - exact (proj2 (proj2 (ServeHTTP_bad_body fixtures.deviceRequest fixtures.NewRequest
                           fixtures.ErrorDeviceNotFound nat fixtures.transcoding
                           fixtures.recorder (fixtures.inbound EmptyString)
                           fixtures.malformed) eq_refl eq_refl)).
Defined.

Lemma ServeHTTP_encodes_response_witness :
  (device.answered (fixtures.served fixtures.transcoding "mac:112233445566")
   = [fixtures.reply
        {| wrp.Type_ := 3; wrp.Destination := "mac:112233445566";
           wrp.TransactionUUID := EmptyString; wrp.Payload := [] |} None]
   /\ device.written fixtures.recorder
        (fixtures.served fixtures.transcoding "mac:112233445566")
      = [Write (bytes_of "pong")]
   /\ device.logged (fixtures.served fixtures.transcoding "mac:112233445566") = [])
  /\ device.written fixtures.recorder
       (fixtures.served fixtures.unanswerable "mac:112233445566")
     = []
  /\ device.logged (fixtures.served fixtures.unanswerable "mac:112233445566")
     = ["Error while encoding WRP response: unsupported message type"].
Proof.
  pose (m := {| wrp.Type_ := 3; wrp.Destination := "mac:112233445566";
                wrp.TransactionUUID := EmptyString; wrp.Payload := [] |}).
  split.
  - exact (proj2 (ServeHTTP_encodes_response fixtures.deviceRequest fixtures.NewRequest
                    fixtures.ErrorDeviceNotFound nat fixtures.transcoding fixtures.recorder
                    (fixtures.inbound "mac:112233445566")
                    {| fixtures.forMessage := m;
                       fixtures.forContents := bytes_of "mac:112233445566";
                       fixtures.forContext := Background |}
                    (fixtures.reply m None) fixtures.msgpackEncoders
                    eq_refl eq_refl eq_refl eq_refl)).
  - exact (proj2 (proj2 (ServeHTTP_encodes_response fixtures.deviceRequest
                           fixtures.NewRequest fixtures.ErrorDeviceNotFound nat
                           fixtures.unanswerable fixtures.recorder
                           (fixtures.inbound "mac:112233445566")
                           {| fixtures.forMessage := m;
                              fixtures.forContents := bytes_of "mac:112233445566";
                              fixtures.forContext := Background |}
                           (fixtures.reply m None) fixtures.rejectingEncoders
                           eq_refl eq_refl eq_refl eq_refl))).
Defined.

Lemma ServeHTTP_writes_raw_contents_witness :
  RespHeader (device.response (fixtures.served fixtures.passthrough "mac:112233445566"))
  = Header_Set "Content-Type" "application/msgpack" ∅
  /\ device.written fixtures.recorder (fixtures.served fixtures.passthrough "mac:112233445566")
     = [Write (bytes_of "pong")].
Proof.
  pose (m := {| wrp.Type_ := 3; wrp.Destination := "mac:112233445566";
                wrp.TransactionUUID := EmptyString; wrp.Payload := [] |}).
  exact (ServeHTTP_writes_raw_contents fixtures.deviceRequest fixtures.NewRequest
           fixtures.ErrorDeviceNotFound nat fixtures.passthrough fixtures.recorder
           (fixtures.inbound "mac:112233445566")
           {| fixtures.forMessage := m;
              fixtures.forContents := bytes_of "mac:112233445566";
              fixtures.forContext := Background |}
           (fixtures.reply m None) eq_refl eq_refl eq_refl eq_refl).
Defined.

Lemma ServeHTTP_context_witness :
  device.constructed (fixtures.served fixtures.deadlined "mac:112233445566")
  = [({| wrp.Type_ := 3; wrp.Destination := "mac:112233445566";
         wrp.TransactionUUID := EmptyString; wrp.Payload := [] |},
      bytes_of "mac:112233445566",
      WithTimeout Background 30000000000)]
  /\ WithTimeout Background 30000000000
     = WithTimeout (ReqContext (fixtures.inbound "mac:112233445566"))
         (device.Timeout fixtures.deadlined).
Proof.
  split; [reflexivity|].
  apply (proj1 (ServeHTTP_context fixtures.deviceRequest fixtures.NewRequest
                  fixtures.ErrorDeviceNotFound nat fixtures.deadlined fixtures.recorder
                  (fixtures.inbound "mac:112233445566")
                  {| wrp.Type_ := 3; wrp.Destination := "mac:112233445566";
                     wrp.TransactionUUID := EmptyString; wrp.Payload := [] |}
                  (bytes_of "mac:112233445566")
                  (WithTimeout Background 30000000000) eq_refl)).
  reflexivity.
Defined.

Lemma channel_within_capacity_witness :
  length (device.devices
            (device.run fixtures.gadget fixtures.name fixtures.marshal device.HandlerThread 180
               (device.start fixtures.gadget fixtures.crowd fixtures.recorder)))
  <= device.capacity.
Proof.
  apply (channel_within_capacity fixtures.gadget fixtures.name fixtures.marshal
           fixtures.crowd fixtures.recorder).
  apply run_is_steps.
Defined.

Lemma opening_failure_ends_the_listing_witness :
  device.handler (device.start fixtures.gadget fixtures.crowd fixtures.brokenPipe)
  = device.Returned
  /\ Calls (device.output (device.start fixtures.gadget fixtures.crowd fixtures.brokenPipe))
     = [Write (bytes_of device.openingToken)].
Proof.
  destruct (opening_failure_ends_the_listing fixtures.gadget fixtures.name fixtures.marshal
              fixtures.crowd fixtures.brokenPipe fixtures.reset eq_refl)
    as (Hret & Hcalls & _).
  split; [exact Hret | exact Hcalls].
Defined.


Lemma listing_logs_every_failure_witness :
  device.messages (fixtures.listed device.HandlerThread (fixtures.three fixtures.valueError))
  = ["Unable to marshal device [mac:665544332211] as JSON: json: unsupported value: NaN"].
Proof.
  exact (listing_logs_every_failure fixtures.gadget fixtures.name fixtures.marshal
           (fixtures.three fixtures.valueError) fixtures.recorder
           (fixtures.listed device.HandlerThread (fixtures.three fixtures.valueError))
           eq_refl
           (run_is_steps fixtures.gadget fixtures.name fixtures.marshal device.HandlerThread
              _ _)
           eq_refl).
Defined.

Lemma listing_call_counts_witness :
  length (List.filter device.is_Flush
            (Calls (device.output
                      (fixtures.listed device.GoroutineThread
                         (fixtures.three fixtures.valueError)))))
  = 4
  /\ length (List.filter device.is_Write
               (Calls (device.output
                         (fixtures.listed device.GoroutineThread
                            (fixtures.three fixtures.valueError)))))
     = 7.
Proof.
  exact (listing_call_counts fixtures.gadget fixtures.name fixtures.marshal
           (fixtures.three fixtures.valueError) fixtures.recorder
           (fixtures.listed device.GoroutineThread (fixtures.three fixtures.valueError))
           eq_refl
           (run_is_steps fixtures.gadget fixtures.name fixtures.marshal device.GoroutineThread
              _ _)
           eq_refl).
Defined.

Lemma EncodeRequest_headers_witness :
  ReqHeader (wrphttp.component
               (wrphttp.EncodeRequest fixtures.DestinationHeader wrp.JSON fixtures.blank
                  fixtures.cached))
  !! "X-Webpa-Device-Name" = Some ["mac:112233445566"]
  /\ ReqHeader (wrphttp.component
                  (wrphttp.EncodeRequest fixtures.DestinationHeader wrp.JSON fixtures.blank
                     fixtures.cached))
     !! "Content-Type" = Some ["application/json"].
Proof.
  destruct (EncodeRequest_headers fixtures.DestinationHeader wrp.JSON fixtures.blank
              fixtures.cached) as (Hd & Hc & _).
  - discriminate.
  - reflexivity.
  - split; [exact Hd | exact Hc].
Defined.

Lemma ClientEncodeRequestBody_headers_witness :
  let h :=
    ReqHeader (fst (wrphttp.ClientEncodeRequestBody fixtures.DestinationHeader wrp.JSON
                      [("X-Webpa-Device-Name", ["mac:000000000000"]);
                       ("Accept", ["application/json"; "application/msgpack"]);
                       ("Content-Type", ["text/plain"])]
                      fixtures.blank fixtures.pingRequest)) in
  h !! "X-Webpa-Device-Name" = Some ["mac:112233445566"]
  /\ h !! "Content-Type" = Some ["application/json"]
  /\ h !! "Accept" = Some ["application/json"; "application/msgpack"].
Proof.
  cbv zeta.
  destruct (ClientEncodeRequestBody_headers fixtures.DestinationHeader wrp.JSON
              [("X-Webpa-Device-Name", ["mac:000000000000"]);
               ("Accept", ["application/json"; "application/msgpack"]);
               ("Content-Type", ["text/plain"])]
              fixtures.blank fixtures.pingRequest) as (Hd & Hc & Hother).
  - discriminate.
  - reflexivity.
  - split; [exact Hd|]. split; [exact Hc|].
    rewrite (Hother "Accept"); [reflexivity | discriminate | discriminate].
Defined.

Lemma request_encoders_content_length_witness :
  ContentLength (wrphttp.component
                   (wrphttp.EncodeRequest fixtures.DestinationHeader wrp.Msgpack
                      fixtures.blank fixtures.cached))
  = 3%Z
  /\ ContentLength (fst (wrphttp.ClientEncodeRequestBody fixtures.DestinationHeader wrp.JSON []
                           fixtures.blank fixtures.pingRequest))
     = 5%Z
  /\ ContentLength (fst (wrphttp.ClientEncodeRequestHeaders fixtures.DestinationHeader
                           fixtures.payloadOnly fixtures.MessageTypeHeader
                           fixtures.TransactionUuidHeader fixtures.friendly []
                           fixtures.blank fixtures.pingRequest))
     = 4%Z.
Proof.
  destruct (request_encoders_content_length fixtures.DestinationHeader fixtures.payloadOnly
              fixtures.MessageTypeHeader fixtures.TransactionUuidHeader fixtures.friendly
              wrp.Msgpack [] fixtures.blank fixtures.cached fixtures.pingRequest)
    as (Hentity & _ & Hheaders).
  destruct (request_encoders_content_length fixtures.DestinationHeader fixtures.payloadOnly
              fixtures.MessageTypeHeader fixtures.TransactionUuidHeader fixtures.friendly
              wrp.JSON [] fixtures.blank fixtures.cached fixtures.pingRequest)
    as (_ & Hbody & _).
  split; [exact (proj1 (Hentity eq_refl))|].
  split; [exact (proj1 (Hbody eq_refl)) | exact (proj1 (Hheaders eq_refl))].
Defined.

Example channel_fills_up :
  length (device.devices
            (device.run fixtures.gadget fixtures.name fixtures.marshal device.HandlerThread 100
               (device.start fixtures.gadget fixtures.crowd fixtures.recorder)))
  = 100
  /\ device.handler_step fixtures.gadget
       (device.run fixtures.gadget fixtures.name fixtures.marshal device.HandlerThread 100
          (device.start fixtures.gadget fixtures.crowd fixtures.recorder))
     = None.
Proof. vm_compute. split; reflexivity. Qed.
